(** * ezredbiom / qiita_pet: the natural-language study search and the
      per-study lookup handlers

    A shallow embedding of [src/ezredbiom/LLM.py] and
    [src/qiita_pet/handlers/api_proxy/custom_study_api.py].

    Text is [String.string]; a character is read as the code point of the
    same number, so the model covers Python strings over U+0000..U+00FF and is
    exact there ([str.lower], [str.strip] and [repr] are written for that
    range).  Printing to standard output is not modelled. *)

From Stdlib Require Import String Ascii List ZArith Bool Lia Sorted DecimalString.
Import ListNotations.
Open Scope string_scope.

(** * Python's built-in text operations used by the sources *)
Module PyStr.

Definition code (c : ascii) : N := N_of_ascii c.

Definition between (lo hi : N) (c : ascii) : bool :=
  ((lo <=? code c) && (code c <=? hi))%N.

(** [str.isspace] on one character: TAB..CR, FS..US, SPACE, NEL, NBSP. *)
Definition isspace (c : ascii) : bool :=
  between 9 13 c || between 28 32 c || (code c =? 133)%N || (code c =? 160)%N.

(** [str.lower] on one character: A-Z, and the Latin-1 capitals U+00C0..U+00DE
    without the multiplication sign U+00D7. *)
Definition lower_char (c : ascii) : ascii :=
  if between 65 90 c || (between 192 222 c && negb (code c =? 215)%N)
  then ascii_of_N (code c + 32)
  else c.

Fixpoint lower (s : string) : string :=
  match s with
  | EmptyString => EmptyString
  | String c s' => String (lower_char c) (lower s')
  end.

Fixpoint lstrip (s : string) : string :=
  match s with
  | EmptyString => EmptyString
  | String c s' => if isspace c then lstrip s' else s
  end.

Fixpoint rstrip (s : string) : string :=
  match s with
  | EmptyString => EmptyString
  | String c s' =>
      match rstrip s' with
      | EmptyString => if isspace c then EmptyString else String c EmptyString
      | r => String c r
      end
  end.

Definition strip (s : string) : string := rstrip (lstrip s).

Definition startswith (s p : string) : bool := prefix p s.

(** [s[n:]] *)
Fixpoint slice_from (n : nat) (s : string) : string :=
  match n, s with
  | O, _ => s
  | S _, EmptyString => EmptyString
  | S k, String _ s' => slice_from k s'
  end.

(** [s.replace(old, new)] for a non-empty [old]: the text is scanned from the
    left, a match is replaced and the scan resumes after it ([skip] counts the
    characters of the current match still to be passed over). *)
Fixpoint replace_from (old new : string) (skip : nat) (s : string) : string :=
  match s with
  | EmptyString => EmptyString
  | String c s' =>
      match skip with
      | S k => replace_from old new k s'
      | O =>
          if prefix old s
          then new ++ replace_from old new (pred (String.length old)) s'
          else String c (replace_from old new 0 s')
      end
  end.

(** With an empty [old], Python puts [new] before every character and at the
    end. *)
Fixpoint intersperse (new s : string) : string :=
  match s with
  | EmptyString => new
  | String c s' => new ++ String c (intersperse new s')
  end.

Definition replace (old new s : string) : string :=
  match old with
  | EmptyString => intersperse new s
  | _ => replace_from old new 0 s
  end.

(** [s.split(sep)] for a non-empty [sep]; the head of the result is the piece
    being read. *)
Fixpoint split_from (sep : string) (skip : nat) (s : string) : list string :=
  match s with
  | EmptyString => [EmptyString]
  | String c s' =>
      match skip with
      | S k => split_from sep k s'
      | O =>
          if prefix sep s
          then EmptyString :: split_from sep (pred (String.length sep)) s'
          else match split_from sep 0 s' with
               | piece :: rest => String c piece :: rest
               | [] => [String c EmptyString]
               end
      end
  end.

Definition split (sep s : string) : list string := split_from sep 0 s.

(** Is [p] a substring of [s]? ([p in s]) *)
Fixpoint contains (p s : string) : bool :=
  prefix p s ||
  match s with
  | EmptyString => false
  | String _ s' => contains p s'
  end.

End PyStr.

(** * Python values *)
Module Py.

(** The values that [json.loads] builds, and [PObj] for an object of any other
    class (given by its class name and its [str()]).  JSON numbers with a
    fraction or an exponent denote floating-point values and have no
    constructor here. *)
#[warnings="-register-all"]
Inductive PyVal : Type :=
  | PNone
  | PBool (b : bool)
  | PInt (z : Z)
  | PStr (s : string)
  | PList (l : list PyVal)
  | PDict (d : list (string * PyVal))
  | PObj (class_name str_ : string).

(** Exceptions that cross a function boundary in the two source files. *)
Inductive exn : Type :=
  | APIError (msg : string)               (* the chat endpoint could not be reached *)
  | IndexError (msg : string)
  | KeyError (key : string)
  | TypeError (msg : string)
  | ValueError (msg : string)
  | AttributeError (msg : string)
  | QiitaDBUnknownIDError (msg : string)
  | StoreError (msg : string)             (* raised by the transaction [TRN] *)
  | OtherError (class_name msg : string).

Inductive outcome (A : Type) : Type :=
  | Return (a : A)
  | Raise (e : exn).
Arguments Return {A} a.
Arguments Raise {A} e.

Definition bind {A B} (m : outcome A) (k : A -> outcome B) : outcome B :=
  match m with
  | Return a => k a
  | Raise e => Raise e
  end.

Notation "x <- m ;; k" := (bind m (fun x => k))
  (at level 61, m at next level, right associativity).

Definition dq : string := String "034"%char EmptyString.
Definition bslash : string := String "092"%char EmptyString.

Definition decimal (z : Z) : string := NilZero.string_of_int (Z.to_int z).

Definition hex_digit (n : N) : ascii :=
  if (n <? 10)%N then ascii_of_N (48 + n) else ascii_of_N (87 + n).

Definition hex2 (c : ascii) : string :=
  String (hex_digit (PyStr.code c / 16)) (String (hex_digit (PyStr.code c mod 16)) EmptyString).

Fixpoint join (sep : string) (l : list string) : string :=
  match l with
  | [] => EmptyString
  | [x] => x
  | x :: rest => x ++ sep ++ join sep rest
  end.

(** [repr] of a string: single quotes unless the text has a single quote and
    no double quote; the quote and the backslash are escaped, TAB, LF and CR
    by letter, the other characters that are not printable as [\xhh]. *)
Definition printable (c : ascii) : bool :=
  PyStr.between 32 126 c || (PyStr.between 161 255 c && negb (PyStr.code c =? 173)%N).

Fixpoint repr_chars (quote : ascii) (s : string) : string :=
  match s with
  | EmptyString => EmptyString
  | String c s' =>
      (if Ascii.eqb c quote || Ascii.eqb c "092"%char then bslash ++ String c EmptyString
       else if Ascii.eqb c "009"%char then bslash ++ "t"
       else if Ascii.eqb c "010"%char then bslash ++ "n"
       else if Ascii.eqb c "013"%char then bslash ++ "r"
       else if printable c then String c EmptyString
       else bslash ++ "x" ++ hex2 c)
      ++ repr_chars quote s'
  end.

Definition repr_str (s : string) : string :=
  let quote := if PyStr.contains "'" s && negb (PyStr.contains dq s)
               then "034"%char else "'"%char in
  String quote (repr_chars quote s) ++ String quote EmptyString.

Fixpoint repr (v : PyVal) : string :=
  match v with
  | PNone => "None"
  | PBool true => "True"
  | PBool false => "False"
  | PInt z => decimal z
  | PStr s => repr_str s
  | PList l => "[" ++ join ", " (map repr l) ++ "]"
  | PDict d =>
      "{" ++ join ", " (map (fun kv => match kv with
                                     | (k, x) => repr_str k ++ ": " ++ repr x
                                     end) d) ++ "}"
  | PObj _ s => s
  end.

(** [str(v)], which is what an f-string field [{v}] inserts. *)
Definition str (v : PyVal) : string :=
  match v with
  | PStr s => s
  | _ => repr v
  end.

(** Truth value of [v] in [if v] and [x if v else y]. *)
Definition truthy (v : PyVal) : bool :=
  match v with
  | PNone => false
  | PBool b => b
  | PInt z => negb (z =? 0)%Z
  | PStr s => negb (String.eqb s EmptyString)
  | PList l => match l with [] => false | _ => true end
  | PDict d => match d with [] => false | _ => true end
  | PObj _ _ => true
  end.

Definition type_name (v : PyVal) : string :=
  match v with
  | PNone => "NoneType"
  | PBool _ => "bool"
  | PInt _ => "int"
  | PStr _ => "str"
  | PList _ => "list"
  | PDict _ => "dict"
  | PObj c _ => c
  end.

Fixpoint lookup (key : string) (d : list (string * PyVal)) : option PyVal :=
  match d with
  | [] => None
  | (k, x) :: rest => if String.eqb k key then Some x else lookup key rest
  end.

(** [d[key] = x] on a dict: an existing key keeps its place. *)
Fixpoint dict_set (key : string) (x : PyVal) (d : list (string * PyVal))
  : list (string * PyVal) :=
  match d with
  | [] => [(key, x)]
  | (k, y) :: rest =>
      if String.eqb k key then (k, x) :: rest else (k, y) :: dict_set key x rest
  end.

(** [v[key]] with a string key: a dict looks the key up, every other value
    raises [TypeError] (a list or a string wants an integer index, the rest
    cannot be subscripted). *)
Definition getitem (v : PyVal) (key : string) : outcome PyVal :=
  match v with
  | PDict d =>
      match lookup key d with
      | Some x => Return x
      | None => Raise (KeyError key)
      end
  | PList _ => Raise (TypeError "list indices must be integers or slices, not str")
  | PStr _ => Raise (TypeError "string indices must be integers, not 'str'")
  | _ => Raise (TypeError ("'" ++ type_name v ++ "' object is not subscriptable"))
  end.

(** [d.get(key, default)] on a dict. *)
Definition dict_get (d : list (string * PyVal)) (key : string) (default : PyVal) : PyVal :=
  match lookup key d with
  | Some x => x
  | None => default
  end.

End Py.
(** * The study registry and the statement of [search_studies_with_sql] *)
Module Qiita.
Import Py.

(** The tables the statement reads; [None] is SQL's NULL. *)
Record study_row : Type := {
  s_study_id : Z;
  s_study_title : option string;
  s_study_abstract : option string;
  s_principal_investigator_id : option Z;
  s_lab_person_id : option Z
}.

Record study_person_row : Type := {
  sp_study_person_id : Z;
  sp_name : option string;
  sp_email : option string;
  sp_affiliation : option string
}.

Record study_artifact_row : Type := {
  sa_study_id : Z;
  sa_artifact_id : Z
}.

Record artifact_row : Type := {
  a_artifact_id : Z;
  a_visibility_id : option Z
}.

Record visibility_row : Type := {
  v_visibility_id : Z;
  v_visibility : string
}.

Record Database : Type := {
  qiita_study : list study_row;
  qiita_study_person : list study_person_row;
  qiita_study_artifact : list study_artifact_row;
  qiita_artifact : list artifact_row;
  qiita_visibility : list visibility_row
}.

(** One row of the FROM clause: [s] with the rows joined to it. *)
Record joined_row : Type := {
  s : study_row;
  sp_pi : option study_person_row;
  sp_lab : option study_person_row;
  sa : option study_artifact_row;
  a : option artifact_row;
  v : option visibility_row
}.

(** The seven columns of the SELECT list, in its order. *)
Record StudyRecord : Type := {
  study_id : Z;
  study_title : option string;
  study_abstract : option string;
  pi_name : option string;
  pi_email : option string;
  pi_affiliation : option string;
  lab_person_name : option string
}.

(** [x = y] in an ON condition: false as soon as a side is NULL. *)
Definition sql_eq (x y : option Z) : bool :=
  match x, y with
  | Some i, Some j => (i =? j)%Z
  | _, _ => false
  end.

(** [left LEFT JOIN right ON on]: every left row is kept, with each right row
    that matches it, or once with NULLs when none does. *)
Definition left_join {L R J : Type} (on : L -> R -> bool) (extend : L -> option R -> J)
    (left : list L) (right : list R) : list J :=
  flat_map (fun l =>
              match filter (on l) right with
              | [] => [extend l None]
              | matches => map (fun r => extend l (Some r)) matches
              end) left.

Definition from_clause (db : Database) : list joined_row :=
  let j1 := left_join
              (fun s0 p => sql_eq (s_principal_investigator_id s0) (Some (sp_study_person_id p)))
              (fun s0 p => (s0, p))
              (qiita_study db) (qiita_study_person db) in
  let j2 := left_join
              (fun j p => sql_eq (s_lab_person_id (fst j)) (Some (sp_study_person_id p)))
              (fun j p => (j, p))
              j1 (qiita_study_person db) in
  let j3 := left_join
              (fun j x => (s_study_id (fst (fst j)) =? sa_study_id x)%Z)
              (fun j x => (j, x))
              j2 (qiita_study_artifact db) in
  let j4 := left_join
              (fun j x => sql_eq (option_map sa_artifact_id (snd j)) (Some (a_artifact_id x)))
              (fun j x => (j, x))
              j3 (qiita_artifact db) in
  left_join
    (fun j x => sql_eq (match snd j with Some r => a_visibility_id r | None => None end)
                       (Some (v_visibility_id x)))
    (fun j x => match j with
                | ((((s0, pi), lab), sa0), a0) =>
                    {| s := s0; sp_pi := pi; sp_lab := lab; sa := sa0; a := a0; v := x |}
                end)
    j4 (qiita_visibility db).

Definition column {R : Type} (f : R -> option string) (r : option R) : option string :=
  match r with
  | Some x => f x
  | None => None
  end.

Definition select_list (j : joined_row) : StudyRecord :=
  {| study_id := s_study_id (s j);
     study_title := s_study_title (s j);
     study_abstract := s_study_abstract (s j);
     pi_name := column sp_name (sp_pi j);
     pi_email := column sp_email (sp_pi j);
     pi_affiliation := column sp_affiliation (sp_pi j);
     lab_person_name := column sp_name (sp_lab j) |}.

Definition StudyRecord_eq_dec (x y : StudyRecord) : {x = y} + {x <> y}.
Proof.
  decide equality; try apply Z.eq_dec;
    decide equality; apply string_dec.
Defined.

(** SELECT DISTINCT *)
Definition distinct (rows : list StudyRecord) : list StudyRecord :=
  nodup StudyRecord_eq_dec rows.

(** ORDER BY s.study_id (ascending); rows with the same identifier stay in
    the order they had. *)
Fixpoint insert_by_id (r : StudyRecord) (sorted : list StudyRecord) : list StudyRecord :=
  match sorted with
  | [] => [r]
  | x :: rest =>
      if (study_id r <? study_id x)%Z then r :: sorted
      else x :: insert_by_id r rest
  end.

Definition order_by_study_id (rows : list StudyRecord) : list StudyRecord :=
  fold_right insert_by_id [] rows.

(** Ascending order of identifier. *)
Definition by_id (x y : StudyRecord) : Prop := (study_id x <= study_id y)%Z.

Definition text_value (t : option string) : PyVal :=
  match t with
  | Some x => PStr x
  | None => PNone
  end.

(** A fetched row, as the driver hands it over: the values of the SELECT
    list, in its order. *)
Definition fetched (r : StudyRecord) : list PyVal :=
  [ PInt (study_id r); text_value (study_title r); text_value (study_abstract r);
    text_value (pi_name r); text_value (pi_email r); text_value (pi_affiliation r);
    text_value (lab_person_name r) ].

(** The person a study is joined with, for a given foreign key: none when no
    person has that key, else a person of the table with that key. *)
Definition joined_person (db : Database) (key : option Z)
    (person : option study_person_row) : Prop :=
  match person with
  | None =>
      filter (fun p => sql_eq key (Some (sp_study_person_id p))) (qiita_study_person db) = []
  | Some p => In p (qiita_study_person db) /\ key = Some (sp_study_person_id p)
  end.

(** [f] identifies the rows of a table. *)
Definition is_key {A : Type} (f : A -> Z) (table : list A) : Prop :=
  forall x y, In x table -> In y table -> f x = f y -> x = y.

Definition same_rows {A : Type} (t1 t2 : list A) : Prop := forall x, In x t1 <-> In x t2.

(** Two registries whose tables hold the same rows, in whatever order. *)
Definition same_tables (db1 db2 : Database) : Prop :=
  same_rows (qiita_study db1) (qiita_study db2)
  /\ same_rows (qiita_study_person db1) (qiita_study_person db2)
  /\ same_rows (qiita_study_artifact db1) (qiita_study_artifact db2)
  /\ same_rows (qiita_artifact db1) (qiita_artifact db2)
  /\ same_rows (qiita_visibility db1) (qiita_visibility db2).

(** The text of the statement around the WHERE predicate. *)
Definition sql_head : string := "
        SELECT DISTINCT s.study_id, s.study_title, s.study_abstract,
               sp_pi.name as pi_name, sp_pi.email as pi_email, 
               sp_pi.affiliation as pi_affiliation,
               sp_lab.name as lab_person_name
        FROM qiita.study s
        LEFT JOIN qiita.study_person sp_pi 
            ON s.principal_investigator_id = sp_pi.study_person_id
        LEFT JOIN qiita.study_person sp_lab 
            ON s.lab_person_id = sp_lab.study_person_id
        LEFT JOIN qiita.study_artifact sa ON s.study_id = sa.study_id
        LEFT JOIN qiita.artifact a ON sa.artifact_id = a.artifact_id
        LEFT JOIN qiita.visibility v ON a.visibility_id = v.visibility_id
        WHERE ".

Definition sql_tail : string := "
        ORDER BY s.study_id
        ".

End Qiita.

(** * [src/ezredbiom/LLM.py] *)
Module LLM.
Import Py Qiita.

(** What lines 104-112 get from [client.chat.completions.create] for one
    request: the text of the first choice ([message.choices[0].message.content]),
    or the exception these lines raise before that text is in hand (a call
    that did not complete, a reply without a choice or without a text). *)
Inductive Completion : Type :=
  | Content (text : string)
  | Failed (e : exn).

(** A row with seven values, as line 62 needs it to build the frame. *)
Record SevenValues : Type := {
  value1 : PyVal; value2 : PyVal; value3 : PyVal; value4 : PyVal;
  value5 : PyVal; value6 : PyVal; value7 : PyVal
}.

Definition values (r : SevenValues) : list PyVal :=
  [value1 r; value2 r; value3 r; value4 r; value5 r; value6 r; value7 r].

(** How the store reads the statement once a text stands in the WHERE
    position.  The text is interpolated as it is: when it is a condition, the
    statement is the template's SELECT with that condition ([Predicate]);
    when it is more than a condition (it closes the WHERE clause, or the
    statement, and carries SQL of its own), the statement is another one and
    the store hands over the rows of that one ([Rows], taken with seven
    columns). *)
Inductive Reading : Type :=
  | Predicate (keep : joined_row -> bool)
  | Rows (rows : list SevenValues).

(** The collaborators of the module that are not part of this repository.
    - [create]: the chat endpoint, asked with the fixed system prompt and the
      user query as the only user turn;
    - [json_loads]: [json.loads], [None] standing for [JSONDecodeError] (the
      other exceptions of [json.loads], which line 124 does not catch, are
      left out);
    - [database]: the registry behind the transaction [TRN];
    - [where_predicate]: the store's reading of the statement for the text in
      the WHERE position and the parameters bound to it, or the exception it
      raises for them. *)
Record Env : Type := {
  create : string -> Completion;
  json_loads : string -> option PyVal;
  database : Database;
  where_predicate : string -> PyVal -> outcome Reading
}.

Record DataFrame : Type := {
  columns : list string;
  data : list (list PyVal)
}.

(** [pd.DataFrame()] *)
Definition empty_frame : DataFrame := {| columns := []; data := [] |}.

Fixpoint strip_prefix (p s : string) : option string :=
  match p, s with
  | EmptyString, _ => Some s
  | String a p', String b s' => if Ascii.eqb a b then strip_prefix p' s' else None
  | String _ _, EmptyString => None
  end.

Definition strip_suffix (t s : string) : option string :=
  let n := String.length s - String.length t in
  if String.eqb (PyStr.slice_from n s) t then Some (substring 0 n s) else None.

(** The WHERE predicate of a statement built on the template. *)
Definition statement_predicate (sql : string) : option string :=
  match strip_prefix sql_head sql with
  | Some rest => strip_suffix sql_tail rest
  | None => None
  end.

(** What the statement selects once its predicate is read: the rows of the
    FROM clause that the predicate keeps, projected on the SELECT list,
    without duplicates, ordered by identifier. *)
Definition selected (E : Env) (keep : joined_row -> bool) : list StudyRecord :=
  order_by_study_id (distinct (map select_list (filter keep (from_clause (database E))))).

(** [TRN.add(sql, params)] followed by [TRN.execute_fetchindex()]. *)
Definition execute_fetchindex (E : Env) (sql : string) (params : PyVal)
  : outcome (list (list PyVal)) :=
  match statement_predicate sql with
  | None => Raise (StoreError "syntax error")
  | Some predicate =>
      reading <- where_predicate E predicate params ;;
      match reading with
      | Predicate keep => Return (map fetched (selected E keep))
      | Rows rows => Return (map values rows)
      end
  end.

(** The text put in the WHERE position:
    [{custom_sql_where if custom_sql_where else '1=1'}]. *)
Definition where_text (custom_sql_where : PyVal) : string :=
  if truthy custom_sql_where then str custom_sql_where else "1=1".

(** The f-string of lines 39-54. *)
Definition sql_statement (custom_sql_where : PyVal) : string :=
  sql_head ++ where_text custom_sql_where ++ sql_tail.

(** Lines 35-36. *)
Definition bound_params (params : PyVal) : PyVal :=
  match params with
  | PNone => PList []
  | _ => params
  end.

Definition result_columns : list string :=
  ["study_id"; "study_title"; "study_abstract";
   "pi_name"; "pi_email"; "pi_affiliation"; "lab_person_name"].

(** Lines 59-67. *)
Definition frame_of (results : list (list PyVal)) : DataFrame :=
  match results with
  | [] => empty_frame
  | _ => {| columns := result_columns; data := results |}
  end.

Definition search_studies_with_sql (E : Env) (custom_sql_where params : PyVal)
  : outcome DataFrame :=
  let params := bound_params params in
  let sql := sql_statement custom_sql_where in
  results <- execute_fetchindex E sql params ;;
  Return (frame_of results).

Definition fallback_where_clause : string :=
  "(s.study_title ILIKE %s OR s.study_abstract ILIKE %s)".

(** Line 127. *)
Definition keywords (user_query : string) : string :=
  PyStr.strip
    (PyStr.replace "about" ""
       (PyStr.replace "studies" ""
          (PyStr.replace "find" "" (PyStr.lower user_query)))).

(** The dict of lines 128-131. *)
Definition fallback (user_query : string) : PyVal :=
  PDict [ ("where_clause", PStr fallback_where_clause);
          ("params", PList [ PStr ("%" ++ keywords user_query ++ "%");
                             PStr ("%" ++ keywords user_query ++ "%") ]) ].

(** Lines 112-119: the reply without its code fence. *)
Definition fence : string := "```".

(** A text without any backtick. *)
Definition backtick_free (text : string) : bool := negb (PyStr.contains "`" text).

Definition clean_response (content : string) : outcome string :=
  let response_text := PyStr.strip content in
  if PyStr.startswith response_text fence then
    match nth_error (PyStr.split fence response_text) 1 with
    | None => Raise (IndexError "list index out of range")
    | Some inner =>
        let inner := if PyStr.startswith inner "json" then PyStr.slice_from 4 inner
                     else inner in
        Return (PyStr.strip inner)
    end
  else Return response_text.

Definition llm_query_to_sql (E : Env) (user_query : string) : outcome PyVal :=
  match create E user_query with
  | Failed e => Raise e
  | Content content =>
      response_text <- clean_response content ;;
      match json_loads E response_text with
      | Some result => Return result
      | None => Return (fallback user_query)
      end
  end.

Definition smart_search_studies (E : Env) (user_query : string) : outcome DataFrame :=
  sql_query <- llm_query_to_sql E user_query ;;
  where_clause <- getitem sql_query "where_clause" ;;
  params <- getitem sql_query "params" ;;
  search_studies_with_sql E where_clause params.

(** The filter handed to [search_studies_with_sql] by [smart_search_studies],
    when the run gets that far. *)
Definition effective_filter (E : Env) (user_query : string) : outcome (PyVal * PyVal) :=
  sql_query <- llm_query_to_sql E user_query ;;
  where_clause <- getitem sql_query "where_clause" ;;
  params <- getitem sql_query "params" ;;
  Return (where_clause, params).

End LLM.

(** * A reference [json.loads]

    The decoder of the JSON grammar as Python's [json] module reads it
    (strict strings, whitespace of four characters, a repeated key keeps its
    first place and its last value).  It serves to run the pipeline on
    concrete replies.  Two kinds of document are outside the text and value
    model and are not decoded: numbers with a fraction or an exponent (with
    [NaN] and [Infinity]), and [\u] escapes above U+00FF. *)
Module Json.
Import Py.

Definition is_ws (c : ascii) : bool :=
  Ascii.eqb c " " || Ascii.eqb c "009" || Ascii.eqb c "010" || Ascii.eqb c "013".

Fixpoint skip_ws (s : string) : string :=
  match s with
  | String c s' => if is_ws c then skip_ws s' else s
  | EmptyString => s
  end.

Definition is_digit (c : ascii) : bool := PyStr.between 48 57 c.

Definition hex_value (c : ascii) : option N :=
  if PyStr.between 48 57 c then Some (PyStr.code c - 48)%N
  else if PyStr.between 97 102 c then Some (PyStr.code c - 87)%N
  else if PyStr.between 65 70 c then Some (PyStr.code c - 55)%N
  else None.

Definition hex4 (h1 h2 h3 h4 : ascii) : option N :=
  match hex_value h1, hex_value h2, hex_value h3, hex_value h4 with
  | Some a, Some b, Some c, Some d => Some (((a * 16 + b) * 16 + c) * 16 + d)%N
  | _, _, _, _ => None
  end.

Definition escape (c : ascii) : option ascii :=
  if Ascii.eqb c "034" then Some "034"%char
  else if Ascii.eqb c "092" then Some "092"%char
  else if Ascii.eqb c "/" then Some "/"%char
  else if Ascii.eqb c "b" then Some "008"%char
  else if Ascii.eqb c "f" then Some "012"%char
  else if Ascii.eqb c "n" then Some "010"%char
  else if Ascii.eqb c "r" then Some "013"%char
  else if Ascii.eqb c "t" then Some "009"%char
  else None.

(** The text after an opening quote, up to the closing one. *)
Fixpoint scanstring (s : string) : option (string * string) :=
  match s with
  | EmptyString => None
  | String c rest =>
      if Ascii.eqb c "034" then Some (EmptyString, rest)
      else if Ascii.eqb c "092" then
        match rest with
        | String e rest' =>
            if Ascii.eqb e "u" then
              match rest' with
              | String h1 (String h2 (String h3 (String h4 rest''))) =>
                  match hex4 h1 h2 h3 h4 with
                  | Some n =>
                      if (n <? 256)%N then
                        match scanstring rest'' with
                        | Some (t, r) => Some (String (ascii_of_N n) t, r)
                        | None => None
                        end
                      else None
                  | None => None
                  end
              | _ => None
              end
            else
              match escape e with
              | Some x =>
                  match scanstring rest' with
                  | Some (t, r) => Some (String x t, r)
                  | None => None
                  end
              | None => None
              end
        | EmptyString => None
        end
      else if (PyStr.code c <? 32)%N then None
      else
        match scanstring rest with
        | Some (t, r) => Some (String c t, r)
        | None => None
        end
  end.

Fixpoint digits (acc : Z) (s : string) : Z * string :=
  match s with
  | String c s' =>
      if is_digit c then digits (acc * 10 + Z.of_N (PyStr.code c - 48)) s' else (acc, s)
  | EmptyString => (acc, s)
  end.

(** Does a fraction or an exponent follow the integer part? *)
Definition float_follows (s : string) : bool :=
  match s with
  | String c (String d rest) =>
      (Ascii.eqb c "." && is_digit d)
      || ((Ascii.eqb c "e" || Ascii.eqb c "E")
          && (is_digit d
              || ((Ascii.eqb d "+" || Ascii.eqb d "-")
                  && match rest with String x _ => is_digit x | EmptyString => false end)))
  | _ => false
  end.

(** An optional minus sign, then [0] alone or digits that start with [1]..[9]. *)
Definition integer (s : string) : option (Z * string) :=
  let (neg, body) := match s with
                     | String c s' => if Ascii.eqb c "-" then (true, s') else (false, s)
                     | EmptyString => (false, s)
                     end in
  match body with
  | String c s' =>
      if Ascii.eqb c "0" then Some (0%Z, s')
      else if is_digit c then
        let (n, rest) := digits 0 body in Some (if neg then (- n)%Z else n, rest)
      else None
  | EmptyString => None
  end.

Definition literal (word : string) (x : PyVal) (s : string) : option (PyVal * string) :=
  match LLM.strip_prefix word s with
  | Some rest => Some (x, rest)
  | None => None
  end.

Fixpoint scan_once (fuel : nat) (s : string) : option (PyVal * string) :=
  match fuel with
  | O => None
  | S fuel' =>
      match s with
      | EmptyString => None
      | String c rest =>
          if Ascii.eqb c "034" then
            match scanstring rest with
            | Some (t, r) => Some (PStr t, r)
            | None => None
            end
          else if Ascii.eqb c "{" then
            match skip_ws rest with
            | String c' r =>
                if Ascii.eqb c' "}" then Some (PDict [], r)
                else members fuel' [] (String c' r)
            | EmptyString => None
            end
          else if Ascii.eqb c "[" then
            match skip_ws rest with
            | String c' r =>
                if Ascii.eqb c' "]" then Some (PList [], r)
                else elements fuel' [] (String c' r)
            | EmptyString => None
            end
          else if Ascii.eqb c "n" then literal "null" PNone s
          else if Ascii.eqb c "t" then literal "true" (PBool true) s
          else if Ascii.eqb c "f" then literal "false" (PBool false) s
          else
            match integer s with
            | Some (n, r) => if float_follows r then None else Some (PInt n, r)
            | None => None
            end
      end
  end

with members (fuel : nat) (acc : list (string * PyVal)) (s : string)
  : option (PyVal * string) :=
  match fuel with
  | O => None
  | S fuel' =>
      match s with
      | String c rest =>
          if Ascii.eqb c "034" then
            match scanstring rest with
            | Some (key, r) =>
                match skip_ws r with
                | String colon r' =>
                    if Ascii.eqb colon ":" then
                      match scan_once fuel' (skip_ws r') with
                      | Some (x, r'') =>
                          let acc' := dict_set key x acc in
                          match skip_ws r'' with
                          | String d r3 =>
                              if Ascii.eqb d "}" then Some (PDict acc', r3)
                              else if Ascii.eqb d "," then members fuel' acc' (skip_ws r3)
                              else None
                          | EmptyString => None
                          end
                      | None => None
                      end
                    else None
                | EmptyString => None
                end
            | None => None
            end
          else None
      | EmptyString => None
      end
  end

with elements (fuel : nat) (acc : list PyVal) (s : string) : option (PyVal * string) :=
  match fuel with
  | O => None
  | S fuel' =>
      match scan_once fuel' s with
      | Some (x, r) =>
          match skip_ws r with
          | String d r' =>
              if Ascii.eqb d "]" then Some (PList (acc ++ [x])%list, r')
              else if Ascii.eqb d "," then elements fuel' (acc ++ [x])%list (skip_ws r')
              else None
          | EmptyString => None
          end
      | None => None
      end
  end.

(** [json.loads(s)]: one value between optional whitespace, nothing after. *)
Definition loads (s : string) : option PyVal :=
  match scan_once (2 * String.length s + 2) (skip_ws s) with
  | Some (x, rest) =>
      match skip_ws rest with
      | EmptyString => Some x
      | _ => None
      end
  | None => None
  end.

End Json.

(** * [src/qiita_pet/handlers/api_proxy/custom_study_api.py] *)
Module StudyAPI.
Import Py.

(** ** [int(text)] and [json.dumps] *)

(** The whitespace [int] skips around the number: TAB..CR and SPACE, with
    NEL and NBSP (which are turned into spaces first).  FS..US are not
    skipped, unlike in [str.strip]. *)
Definition int_space (c : ascii) : bool :=
  PyStr.between 9 13 c || (PyStr.code c =? 32)%N
  || (PyStr.code c =? 133)%N || (PyStr.code c =? 160)%N.

Fixpoint int_lstrip (t : string) : string :=
  match t with
  | EmptyString => EmptyString
  | String c t' => if int_space c then int_lstrip t' else t
  end.

Fixpoint int_rstrip (t : string) : string :=
  match t with
  | EmptyString => EmptyString
  | String c t' =>
      match int_rstrip t' with
      | EmptyString => if int_space c then EmptyString else String c EmptyString
      | r => String c r
      end
  end.

(** What came last in the run of digits. *)
Inductive int_prev : Type := at_start | after_digit | after_underscore.

(** The run of digits and underscores at the front of [t]: its value, its
    number of digits and what follows it; [None] when an underscore is not
    between two digits. *)
Fixpoint int_digits (acc : Z) (count : nat) (prev : int_prev) (t : string)
  : option (Z * nat * string) :=
  match t with
  | EmptyString =>
      match prev with
      | after_underscore => None
      | _ => Some (acc, count, t)
      end
  | String c t' =>
      if Json.is_digit c then
        int_digits (acc * 10 + Z.of_N (PyStr.code c - 48)) (S count) after_digit t'
      else if Ascii.eqb c "_" then
        match prev with
        | after_digit => int_digits acc count after_underscore t'
        | _ => None
        end
      else
        match prev with
        | after_underscore => None
        | _ => Some (acc, count, t)
        end
  end.

(** [sys.get_int_max_str_digits()], at its default. *)
Definition int_max_str_digits : nat := 4300.

(** The message shows at most 200 characters of the [repr]. *)
Definition invalid_literal (text : string) : exn :=
  ValueError ("invalid literal for int() with base 10: "
              ++ substring 0 200 (repr_str text)).

Definition exceeds_limit (count : nat) : exn :=
  ValueError ("Exceeds the limit (4300 digits) for integer string conversion: value has "
              ++ decimal (Z.of_nat count)
              ++ " digits; use sys.set_int_max_str_digits() to increase the limit").

(** [int(text)]: whitespace around the number is skipped, a sign may come
    first, the digits may be grouped by single underscores, and more digits
    than the limit are refused before the rest of the text is looked at. *)
Definition int (text : string) : outcome Z :=
  let t := int_rstrip (int_lstrip text) in
  let (negative, body) :=
    match t with
    | String c t' =>
        if Ascii.eqb c "-" then (true, t')
        else if Ascii.eqb c "+" then (false, t')
        else (false, t)
    | EmptyString => (false, t)
    end in
  match int_digits 0 0 at_start body with
  | None => Raise (invalid_literal text)
  | Some (n, count, rest) =>
      if Nat.ltb int_max_str_digits count then Raise (exceeds_limit count)
      else
        match rest, count with
        | EmptyString, S _ => Return (if negative then (- n)%Z else n)
        | _, _ => Raise (invalid_literal text)
        end
  end.

Definition hex4 (c : ascii) : string := "00" ++ hex2 c.

Fixpoint dumps_chars (t : string) : string :=
  match t with
  | EmptyString => EmptyString
  | String c t' =>
      (if Ascii.eqb c "034" then bslash ++ dq
       else if Ascii.eqb c "092" then bslash ++ bslash
       else if Ascii.eqb c "010" then bslash ++ "n"
       else if Ascii.eqb c "013" then bslash ++ "r"
       else if Ascii.eqb c "009" then bslash ++ "t"
       else if Ascii.eqb c "008" then bslash ++ "b"
       else if Ascii.eqb c "012" then bslash ++ "f"
       else if PyStr.between 32 126 c then String c EmptyString
       else bslash ++ "u" ++ hex4 c)
      ++ dumps_chars t'
  end.

Definition dumps_str (t : string) : string := dq ++ dumps_chars t ++ dq.

(** [json.dumps(v)] with its defaults; an object of another class cannot be
    serialised. *)
Fixpoint dumps (x : PyVal) : outcome string :=
  match x with
  | PNone => Return "null"
  | PBool true => Return "true"
  | PBool false => Return "false"
  | PInt z => Return (decimal z)
  | PStr t => Return (dumps_str t)
  | PList l =>
      items <- (fix each (l : list PyVal) : outcome (list string) :=
                  match l with
                  | [] => Return []
                  | y :: rest => a <- dumps y ;; b <- each rest ;; Return (a :: b)
                  end) l ;;
      Return ("[" ++ join ", " items ++ "]")
  | PDict d =>
      items <- (fix each (d : list (string * PyVal)) : outcome (list string) :=
                  match d with
                  | [] => Return []
                  | (k, y) :: rest =>
                      a <- dumps y ;; b <- each rest ;;
                      Return ((dumps_str k ++ ": " ++ a) :: b)
                  end) d ;;
      Return ("{" ++ join ", " items ++ "}")
  | PObj c _ => Raise (TypeError ("Object of type " ++ c ++ " is not JSON serializable"))
  end.

(** [str(e)] of a caught exception. *)
Definition exn_str (e : exn) : string :=
  match e with
  | APIError m | IndexError m | TypeError m | ValueError m | AttributeError m
  | QiitaDBUnknownIDError m | StoreError m | OtherError _ m => m
  | KeyError k => repr_str k
  end.

(** ** The request handler and the study object *)

(** What a handler has sent so far. *)
Record Handler : Type := {
  status : Z;
  headers : list (string * string);
  written : list string
}.

Definition fresh : Handler := {| status := 200; headers := []; written := [] |}.

Definition set_status (h : Handler) (code : Z) : Handler :=
  {| status := code; headers := headers h; written := written h |}.

Definition set_header (h : Handler) (name value : string) : Handler :=
  {| status := status h;
     headers := (name, value) :: filter (fun kv => negb (String.eqb (fst kv) name)) (headers h);
     written := written h |}.

Definition write (h : Handler) (chunk : string) : Handler :=
  {| status := status h; headers := headers h; written := (written h ++ [chunk])%list |}.

(** A [Study] object, through the three attributes the handlers read; reading
    one may raise. *)
Record StudyObj : Type := {
  title : outcome PyVal;
  info : outcome PyVal;
  study_status : outcome PyVal
}.

(** [Study(study_id)], from [qiita_db]. *)
Definition Registry : Type := Z -> outcome StudyObj.

(** [obj.attr if hasattr(obj, 'attr') else default] *)
Definition attr_or (attribute : outcome PyVal) (default : PyVal) : outcome PyVal :=
  match attribute with
  | Raise (AttributeError _) => Return default
  | other => other
  end.

(** [x.get(key, default)] *)
Definition get_method (x : PyVal) (key : string) (default : PyVal) : outcome PyVal :=
  match x with
  | PDict d => Return (dict_get d key default)
  | _ => Raise (AttributeError ("'" ++ type_name x ++ "' object has no attribute 'get'"))
  end.

(** The value of the variable [study_id] when an [except] clause reads it. *)
Definition study_id_var (study_id : string) : PyVal :=
  match int study_id with
  | Return n => PInt n
  | Raise _ => PStr study_id
  end.

Definition error_body (message : string) : PyVal := PDict [("error", PStr message)].

(** [self.write(dumps(body))] inside an [except] clause. *)
Definition write_json (h : Handler) (body : PyVal) : Handler :=
  match dumps body with
  | Return text => write h text
  | Raise _ => h
  end.

(** The last two statements of each [try] block. *)
Definition send (h : Handler) (response : PyVal) : Handler * outcome unit :=
  let h := set_header h "Content-Type" "application/json" in
  match dumps response with
  | Return text => (write h text, Return tt)
  | Raise e => (h, Raise e)
  end.

Definition attempt (h : Handler) (response : outcome PyVal) : Handler * outcome unit :=
  match response with
  | Return r => send h r
  | Raise e => (h, Raise e)
  end.

Module StudyAbstractAPIHandler.

Definition response (Study : Registry) (study_id : string) : outcome PyVal :=
  n <- int study_id ;;
  study <- Study n ;;
  t <- title study ;;
  i <- info study ;;
  abstract <- get_method i "study_abstract" (PStr "No abstract available") ;;
  st <- study_status study ;;
  Return (PDict [("study_id", PInt n); ("title", t); ("abstract", abstract); ("status", st)]).

Definition get (Study : Registry) (study_id : string) : Handler :=
  match attempt fresh (response Study study_id) with
  | (h, Return _) => h
  | (h, Raise (QiitaDBUnknownIDError _)) =>
      write_json (set_status h 404)
        (error_body ("Study " ++ str (study_id_var study_id) ++ " not found"))
  | (h, Raise (ValueError _)) =>
      write_json (set_status h 400) (error_body "Invalid study ID format")
  | (h, Raise (AttributeError m)) =>
      write_json (set_status h 500)
        (error_body ("AttributeError: " ++ m ++ ". Study object may not be fully initialized."))
  | (h, Raise e) =>
      write_json (set_status h 500) (error_body ("Unexpected error: " ++ exn_str e))
  end.

End StudyAbstractAPIHandler.

Module StudyDetailAPIHandler.

(** The dict built for [principal_investigator] and for [lab_person]. *)
Definition person (p : PyVal) : PyVal :=
  match p with
  | PDict d =>
      PDict [("name", dict_get d "name" (PStr ""));
             ("email", dict_get d "email" (PStr ""));
             ("affiliation", dict_get d "affiliation" (PStr ""))]
  | _ => PDict [("name", PStr (str p)); ("email", PStr ""); ("affiliation", PStr "")]
  end.

Definition add_person (key : string) (i : list (string * PyVal))
    (response : list (string * PyVal)) : list (string * PyVal) :=
  match lookup key i with
  | Some p => dict_set key (person p) response
  | None => response
  end.

Definition response (Study : Registry) (study_id : string) : outcome PyVal :=
  n <- int study_id ;;
  study <- Study n ;;
  i <- attr_or (info study) (PDict []) ;;
  t <- attr_or (title study) (PStr "No title") ;;
  abstract <- get_method i "study_abstract" (PStr "No abstract available") ;;
  description <- get_method i "study_description" (PStr "No description available") ;;
  st <- attr_or (study_status study) (PStr "unknown") ;;
  match i with
  | PDict d =>
      let r := [("study_id", PInt n); ("title", t); ("abstract", abstract);
                ("description", description); ("status", st)] in
      let r := add_person "principal_investigator" d r in
      let r := add_person "lab_person" d r in
      let r := dict_set "publication_doi" (dict_get d "publication_doi" (PList [])) r in
      let r := dict_set "publication_pid" (dict_get d "publication_pid" (PList [])) r in
      let r := dict_set "study_alias" (dict_get d "study_alias" (PStr "")) r in
      Return (PDict r)
  | _ => Raise (AttributeError ("'" ++ type_name i ++ "' object has no attribute 'get'"))
  end.

Definition get (Study : Registry) (study_id : string) : Handler :=
  match attempt fresh (response Study study_id) with
  | (h, Return _) => h
  | (h, Raise (QiitaDBUnknownIDError _)) =>
      write_json (set_status h 404)
        (error_body ("Study " ++ str (study_id_var study_id) ++ " not found"))
  | (h, Raise (ValueError _)) =>
      write_json (set_status h 400) (error_body "Invalid study ID format")
  | (h, Raise e) =>
      write_json (set_status h 500) (error_body ("Error retrieving study: " ++ exn_str e))
  end.

End StudyDetailAPIHandler.

Module StudyAuthorsAPIHandler.

Definition response (Study : Registry) (study_id : string) : outcome PyVal :=
  n <- int study_id ;;
  study <- Study n ;;
  i <- attr_or (info study) (PDict []) ;;
  t <- attr_or (title study) (PStr "No title") ;;
  pi <- get_method i "principal_investigator" (PDict []) ;;
  lab <- get_method i "lab_person" (PDict []) ;;
  Return (PDict [("study_id", PInt n); ("study_title", t);
                 ("principal_investigator", pi); ("lab_person", lab)]).

Definition get (Study : Registry) (study_id : string) : Handler :=
  match attempt fresh (response Study study_id) with
  | (h, Return _) => h
  | (h, Raise (QiitaDBUnknownIDError _)) =>
      write_json (set_status h 404)
        (error_body ("Study " ++ str (study_id_var study_id) ++ " not found"))
  | (h, Raise e) =>
      write_json (set_status h 500) (error_body ("Error retrieving authors: " ++ exn_str e))
  end.

End StudyAuthorsAPIHandler.

Module StudyListAPIHandler.

(** The body of the inner [try] for one identifier: the entry appended to
    [study_list], or [None] when the bare [except] skips the study. *)
Definition entry (Study : Registry) (study_id : Z) : option PyVal :=
  match (study <- Study study_id ;;
         t <- attr_or (title study) (PStr "No title") ;;
         st <- attr_or (study_status study) (PStr "unknown") ;;
         Return (PDict [("study_id", PInt study_id); ("title", t); ("status", st)])) with
  | Return e => Some e
  | Raise _ => None
  end.

(** The [for] loop over the identifiers, in the order they are iterated. *)
Fixpoint study_list (Study : Registry) (studies : list Z) : list PyVal :=
  match studies with
  | [] => []
  | study_id :: rest =>
      match entry Study study_id with
      | Some e => e :: study_list Study rest
      | None => study_list Study rest
      end
  end.

Definition response (get_all_study_ids : outcome (list Z)) (Study : Registry)
  : outcome PyVal :=
  studies <- get_all_study_ids ;;
  let l := study_list Study studies in
  Return (PDict [("total_studies", PInt (Z.of_nat (List.length l))); ("studies", PList l)]).

(** [get_all_study_ids] is [Study.get_all_study_ids()], given by what it
    returns, in iteration order, or raises. *)
Definition get (get_all_study_ids : outcome (list Z)) (Study : Registry) : Handler :=
  match attempt fresh (response get_all_study_ids Study) with
  | (h, Return _) => h
  | (h, Raise e) =>
      write_json (set_status h 500) (error_body ("Error listing studies: " ++ exn_str e))
  end.

(** Is the study of this identifier listed? *)
Definition listed (Study : Registry) (study_id : Z) : bool :=
  match entry Study study_id with
  | Some _ => true
  | None => false
  end.

End StudyListAPIHandler.

Definition json_header : string * string := ("Content-Type", "application/json").

(** An answer in one piece.  Either status 200 with the JSON content type and
    the serialised [response] as the only chunk; or an error status with an
    [{error: message}] object as the only chunk, the content type being set
    only when the failure came from serialising a response that was built. *)
Definition well_answered (response : outcome PyVal) (h : Handler) : Prop :=
  exists chunk,
    written h = [chunk]
    /\ ((status h = 200%Z /\ headers h = [json_header]
         /\ exists r, response = Return r /\ dumps r = Return chunk)
        \/ (In (status h) [400; 404; 500]%Z
            /\ (exists message, dumps (error_body message) = Return chunk)
            /\ match response with
               | Return r => headers h = [json_header] /\ exists e, dumps r = Raise e
               | Raise _ => headers h = []
               end)).

End StudyAPI.

(** * The notions the specification states its properties with *)
Module Spec.
Import Py.

(** Placeholders of a clause: each [%s]; [%%] is a literal percent sign. *)
Fixpoint placeholders (after_percent : bool) (clause : string) : nat :=
  match clause with
  | EmptyString => 0
  | String c rest =>
      if after_percent then
        (if Ascii.eqb c "s" then 1 else 0) + placeholders false rest
      else placeholders (Ascii.eqb c "%") rest
  end.

Definition placeholder_count (clause : string) : nat := placeholders false clause.

(** A SynthesizedFilter: a clause text with N placeholders and a sequence of
    exactly N values. *)
Definition structurally_valid (where_clause params : PyVal) : bool :=
  match where_clause, params with
  | PStr clause, PList values => Nat.eqb (placeholder_count clause) (List.length values)
  | _, _ => false
  end.

(** Store-control syntax: quotes, semicolons, comment markers. *)
Definition has_control_syntax (text : string) : bool :=
  PyStr.contains "'" text || PyStr.contains dq text || PyStr.contains ";" text
  || PyStr.contains "--" text || PyStr.contains "/*" text.







(** A reply that parses as an object with a clause string and a parameter
    sequence. *)
Definition valid_reply (parsed : option PyVal) : bool :=
  match parsed with
  | Some (PDict d) =>
      match lookup "where_clause" d, lookup "params" d with
      | Some (PStr _), Some (PList _) => true
      | _, _ => false
      end
  | _ => false
  end.

(** The filter of the Fallback Synthesizer for a query. *)
Definition fallback_filter (user_query : string) : PyVal * PyVal :=
  let wildcarded := "%" ++ LLM.keywords user_query ++ "%" in
  (PStr LLM.fallback_where_clause, PList [PStr wildcarded; PStr wildcarded]).

(** The search runs without an error of its own and executes the Fallback's
    filter. *)
Definition uses_fallback (E : LLM.Env) (user_query : string) : Prop :=
  LLM.effective_filter E user_query = Return (fallback_filter user_query).

End Spec.

(** * A small registry and store, to run the pipeline on *)
Module Sample.
Import Py Qiita LLM.

(** LIKE: [%] stands for any text, [_] for any character, a backslash takes
    the next character literally. *)
Fixpoint like (pattern text : string) : bool :=
  match pattern with
  | EmptyString => String.eqb text EmptyString
  | String c p' =>
      if Ascii.eqb c "%" then
        (fix any (t : string) : bool :=
           like p' t || match t with
                        | EmptyString => false
                        | String _ t' => any t'
                        end) text
      else if Ascii.eqb c "_" then
        match text with
        | String _ t' => like p' t'
        | EmptyString => false
        end
      else if Ascii.eqb c "092" then
        match p', text with
        | String e p'', String d t' => Ascii.eqb e d && like p'' t'
        | _, _ => false
        end
      else
        match text with
        | String d t' => Ascii.eqb c d && like p' t'
        | EmptyString => false
        end
  end.

Definition ilike (text : option string) (pattern : string) : bool :=
  match text with
  | Some t => like (PyStr.lower pattern) (PyStr.lower t)
  | None => false
  end.

Definition db : Database :=
  {| qiita_study :=
       [ {| s_study_id := 7; s_study_title := Some "Gut microbiome of mice";
            s_study_abstract := Some "A study about diet";
            s_principal_investigator_id := Some 1%Z; s_lab_person_id := None |};
         {| s_study_id := 2; s_study_title := Some "Soil Microbiome survey";
            s_study_abstract := None;
            s_principal_investigator_id := Some 2%Z; s_lab_person_id := Some 1%Z |};
         {| s_study_id := 5; s_study_title := Some "Ocean plankton";
            s_study_abstract := Some "Findings on soil microbiome runoff";
            s_principal_investigator_id := None; s_lab_person_id := None |} ];
     qiita_study_person :=
       [ {| sp_study_person_id := 1; sp_name := Some "Rob Knight";
            sp_email := Some "rob@example.org"; sp_affiliation := Some "UCSD" |};
         {| sp_study_person_id := 2; sp_name := Some "Ada Soil";
            sp_email := None; sp_affiliation := None |} ];
     qiita_study_artifact :=
       [ {| sa_study_id := 7; sa_artifact_id := 70 |};
         {| sa_study_id := 7; sa_artifact_id := 71 |};
         {| sa_study_id := 2; sa_artifact_id := 20 |} ];
     qiita_artifact :=
       [ {| a_artifact_id := 70; a_visibility_id := Some 1%Z |};
         {| a_artifact_id := 71; a_visibility_id := Some 2%Z |};
         {| a_artifact_id := 20; a_visibility_id := Some 1%Z |} ];
     qiita_visibility :=
       [ {| v_visibility_id := 1; v_visibility := "public" |};
         {| v_visibility_id := 2; v_visibility := "private" |} ] |}.

(** A clause that ends the template's statement and starts another one, whose
    first column is the negated identifier.  The template's ORDER BY then
    belongs to the second statement. *)
Definition second_statement : string :=
  "1=1; SELECT -s.study_id, s.study_title, s.study_abstract, NULL, NULL, NULL, NULL FROM qiita.study s WHERE 1=1".

(** The rows of that second statement: the studies by ascending identifier,
    each with its negated identifier first. *)
Definition second_statement_rows (database : Database) : list SevenValues :=
  map (fun r => {| value1 := PInt (- study_id r);
                   value2 := text_value (study_title r);
                   value3 := text_value (study_abstract r);
                   value4 := PNone; value5 := PNone; value6 := PNone; value7 := PNone |})
      (order_by_study_id
         (map (fun s0 => {| study_id := s_study_id s0;
                            study_title := s_study_title s0;
                            study_abstract := s_study_abstract s0;
                            pi_name := None; pi_email := None; pi_affiliation := None;
                            lab_person_name := None |})
              (qiita_study database))).

(** A store that reads three conditions (the constant one, the fallback
    clause, a comparison on the artifact identifier) and the clause
    [second_statement]; it hands over the rows of the last statement. *)
Definition predicate (database : Database) (text : string) (params : PyVal)
  : outcome Reading :=
  if String.eqb text "1=1" then
    match params with
    | PList [] => Return (Predicate (fun _ => true))
    | _ => Raise (StoreError "not all arguments converted during string formatting")
    end
  else if String.eqb text fallback_where_clause then
    match params with
    | PList [PStr p1; PStr p2] =>
        Return (Predicate (fun j => ilike (s_study_title (s j)) p1
                                    || ilike (s_study_abstract (s j)) p2))
    | _ => Raise (StoreError "wrong number of parameters")
    end
  else if String.eqb text "a.artifact_id = %s" then
    match params with
    | PList [PInt n] =>
        Return (Predicate (fun j => match a j with
                                    | Some x => (a_artifact_id x =? n)%Z
                                    | None => false
                                    end))
    | _ => Raise (StoreError "wrong number of parameters")
    end
  else if String.eqb text second_statement then
    match params with
    | PList [] => Return (Rows (second_statement_rows database))
    | _ => Raise (StoreError "not all arguments converted during string formatting")
    end
  else Raise (StoreError "syntax error").

(** The same registry with the rows of every table in reverse order. *)
Definition db_reversed : Database :=
  {| qiita_study := rev (qiita_study db);
     qiita_study_person := rev (qiita_study_person db);
     qiita_study_artifact := rev (qiita_study_artifact db);
     qiita_artifact := rev (qiita_artifact db);
     qiita_visibility := rev (qiita_visibility db) |}.

Definition env_reversed : Env :=
  {| create := fun _ => Failed (APIError "offline");
     json_loads := Json.loads;
     database := db_reversed;
     where_predicate := predicate db_reversed |}.

(** The environment in which the chat endpoint answers [reply]. *)
Definition env (reply : Completion) : Env :=
  {| create := fun _ => reply;
     json_loads := Json.loads;
     database := db;
     where_predicate := predicate db |}.

(** A JSON text in double quotes. *)
Definition quoted (t : string) : string := dq ++ t ++ dq.

(** A reply of the shape the system prompt asks for. *)
Definition reply_object (where_clause params : string) : string :=
  "{" ++ quoted "where_clause" ++ ": " ++ quoted where_clause ++ ", "
      ++ quoted "params" ++ ": " ++ params ++ "}".

(** An endpoint that writes the query as a quoted literal into the clause, in
    the manner of the prompt's [field ILIKE '%keyword%']. *)
Definition quoting_env : Env :=
  {| create := fun user_query =>
                 Content (reply_object ("s.study_title = '" ++ user_query ++ "'") "[]");
     json_loads := Json.loads;
     database := db;
     where_predicate := predicate db |}.

End Sample.

(** * Properties *)

Import Py Qiita LLM Spec.

(** ** The definitions at work *)

Example lower_strip_example :
  PyStr.strip (PyStr.lower "  Find Studies ABOUT Soil  ") = "find studies about soil".
Proof. reflexivity. Qed.

Example replace_scans_from_the_left :
  PyStr.replace "studies" "" "studiestudies" = "tudies"
  /\ PyStr.replace "find" "" "fifindnd" = "find".
Proof. split; reflexivity. Qed.

Example split_example :
  PyStr.split "```" "```json {} ``` tail" = [""; "json {} "; " tail"].
Proof. reflexivity. Qed.

Example clean_response_fenced :
  clean_response ("  ```json" ++ String "010" "{}" ++ String "010" "```  ") = Return "{}"
  /\ clean_response "```" = Return ""
  /\ clean_response " [1, 2] " = Return "[1, 2]".
Proof. repeat split; reflexivity. Qed.

Example loads_examples :
  Json.loads (Sample.reply_object "sp_pi.name ILIKE %s" ("[" ++ Sample.quoted "%Rob Knight%" ++ "]"))
  = Some (PDict [("where_clause", PStr "sp_pi.name ILIKE %s");
                 ("params", PList [PStr "%Rob Knight%"])])
  /\ Json.loads " [1, -20, true, null, {}] "
     = Some (PList [PInt 1; PInt (-20); PBool true; PNone; PDict []])
  /\ Json.loads "[1,]" = None
  /\ Json.loads "{'a': 1}" = None
  /\ Json.loads "" = None.
Proof. repeat split; reflexivity. Qed.

Example repr_examples :
  repr (PDict [("a", PInt (-5)); ("b", PList [PStr "it's"; PNone; PBool true])])
  = "{'a': -5, 'b': [" ++ dq ++ "it's" ++ dq ++ ", None, True]}".
Proof. reflexivity. Qed.

Example int_examples :
  StudyAPI.int " 42 " = Return 42%Z
  /\ StudyAPI.int "-1_000" = Return (-1000)%Z
  /\ StudyAPI.int "4 2" = Raise (ValueError "invalid literal for int() with base 10: '4 2'")
  /\ StudyAPI.int "" = Raise (ValueError "invalid literal for int() with base 10: ''").
Proof. repeat split; reflexivity. Qed.

(** The reply of the system prompt's first example, on the sample registry. *)
Example working_model_example :
  smart_search_studies
    (Sample.env (Content (Sample.reply_object
                            "(s.study_title ILIKE %s OR s.study_abstract ILIKE %s)"
                            ("[" ++ Sample.quoted "%soil%" ++ ", " ++ Sample.quoted "%soil%" ++ "]"))))
    "studies about soil microbiome"
  = Return {| columns := result_columns;
              data := [ [PInt 2; PStr "Soil Microbiome survey"; PNone;
                         PStr "Ada Soil"; PNone; PNone; PStr "Rob Knight"];
                        [PInt 5; PStr "Ocean plankton";
                         PStr "Findings on soil microbiome runoff";
                         PNone; PNone; PNone; PNone] ] |}.
Proof. reflexivity. Qed.

(** Study 7 has two artifacts and comes back once (DISTINCT); the rows come
    back by identifier, not in table order. *)
Example unconditional_scan_example :
  option_map (map (hd PNone))
    (match search_studies_with_sql (Sample.env (Content "")) (PStr "") PNone with
     | Return frame => Some (data frame)
     | Raise _ => None
     end)
  = Some [PInt 2; PInt 5; PInt 7]
  /\ List.length (from_clause Sample.db) = 4.
Proof. split; reflexivity. Qed.

(** ** Text operations *)

Lemma split_from_nonempty (sep : string) (s : string) :
  forall skip, PyStr.split_from sep skip s <> [].
Proof.
  induction s as [|c s IH]; intros skip; cbn [PyStr.split_from].
  - discriminate.
  - destruct skip as [|k].
    + destruct (prefix sep (String c s)); [discriminate|].
      destruct (PyStr.split_from sep 0 s); discriminate.
    + apply IH.
Qed.

(** A text that starts with the separator splits in at least two pieces. *)
Lemma split_after_fence (sep s : string) :
  sep <> EmptyString -> prefix sep s = true ->
  exists piece rest, PyStr.split sep s = EmptyString :: piece :: rest.
Proof.
  intros Hsep Hp. unfold PyStr.split.
  destruct s as [|c s].
  - destruct sep; [congruence | simpl in Hp; discriminate].
  - cbn [PyStr.split_from]. rewrite Hp.
    destruct (PyStr.split_from sep (pred (String.length sep)) s) as [|x l] eqn:E.
    + exfalso. exact (split_from_nonempty _ _ _ E).
    + eauto.
Qed.

(** Removing the code fence never fails. *)
Lemma clean_response_returns (content : string) :
  exists cleaned, clean_response content = Return cleaned.
Proof.
  unfold clean_response, PyStr.startswith.
  destruct (prefix fence (PyStr.strip content)) eqn:Hp.
  - destruct (split_after_fence fence (PyStr.strip content)) as (piece & rest & Hs);
      [discriminate | exact Hp |].
    rewrite Hs. simpl. eauto.
  - eauto.
Qed.

Lemma prefix_app (p s : string) : prefix p (p ++ s) = true.
Proof.
  induction p as [|c p IH]; simpl.
  - destruct s; reflexivity.
  - destruct (ascii_dec c c); [exact IH | congruence].
Qed.

Lemma replace_from_skip (old new t s : string) :
  PyStr.replace_from old new (String.length t) (t ++ s) = PyStr.replace_from old new 0 s.
Proof.
  induction t as [|c t IH]; simpl.
  - reflexivity.
  - exact IH.
Qed.

(** The scan of [replace]: a match at the front is replaced and the scan
    goes on behind it. *)
Lemma replace_match (old new s : string) :
  old <> EmptyString ->
  PyStr.replace old new (old ++ s) = new ++ PyStr.replace old new s.
Proof.
  intros Hold. destruct old as [|c old]; [congruence|].
  unfold PyStr.replace.
  change (String c old ++ s) with (String c (old ++ s)).
  cbn [PyStr.replace_from].
  change (String c (old ++ s)) with (String c old ++ s).
  rewrite prefix_app. cbn [String.length pred].
  now rewrite replace_from_skip.
Qed.

Lemma replace_from_slice (old new s : string) :
  forall skip,
    PyStr.replace_from old new skip s
    = PyStr.replace_from old new 0 (PyStr.slice_from skip s).
Proof.
  induction s as [|c s IH]; intros [|k]; try reflexivity.
  cbn [PyStr.replace_from PyStr.slice_from]. apply IH.
Qed.

(** One step of the scan, for a non-empty [old]. *)
Lemma replace_step (old new : string) (c : ascii) (s : string) :
  old <> EmptyString ->
  PyStr.replace old new (String c s)
  = if prefix old (String c s)
    then new ++ PyStr.replace old new (PyStr.slice_from (pred (String.length old)) s)
    else String c (PyStr.replace old new s).
Proof.
  intros Hold. destruct old as [|d old]; [congruence|].
  unfold PyStr.replace. cbn [PyStr.replace_from].
  destruct (prefix (String d old) (String c s)); [|reflexivity].
  now rewrite replace_from_slice.
Qed.

(** Where no match starts, the character is kept. *)
Lemma replace_no_match (old new : string) (c : ascii) (s : string) :
  old <> EmptyString -> prefix old (String c s) = false ->
  PyStr.replace old new (String c s) = String c (PyStr.replace old new s).
Proof.
  intros Hold Hp. destruct old as [|d old]; [congruence|].
  unfold PyStr.replace. cbn [PyStr.replace_from]. now rewrite Hp.
Qed.

(** ** The statement and the store *)

Lemma strip_prefix_app (p s : string) : strip_prefix p (p ++ s) = Some s.
Proof.
  induction p as [|c p IH]; simpl.
  - reflexivity.
  - now rewrite Ascii.eqb_refl.
Qed.

Lemma length_app (w t : string) :
  String.length (w ++ t) = String.length w + String.length t.
Proof. induction w as [|c w IH]; simpl; [reflexivity | now rewrite IH]. Qed.

Lemma slice_from_app (w t : string) : PyStr.slice_from (String.length w) (w ++ t) = t.
Proof. induction w as [|c w IH]; simpl; [reflexivity | exact IH]. Qed.

Lemma substring_app (w t : string) : substring 0 (String.length w) (w ++ t) = w.
Proof.
  induction w as [|c w IH]; simpl.
  - destruct t; reflexivity.
  - now rewrite IH.
Qed.

Lemma strip_suffix_app (w t : string) : strip_suffix t (w ++ t) = Some w.
Proof.
  unfold strip_suffix.
  replace (String.length (w ++ t) - String.length t) with (String.length w)
    by (rewrite length_app; lia).
  now rewrite slice_from_app, String.eqb_refl, substring_app.
Qed.

(** The store finds in the statement the text that was put in the WHERE
    position. *)
Lemma statement_predicate_sql (custom_sql_where : PyVal) :
  statement_predicate (sql_statement custom_sql_where) = Some (where_text custom_sql_where).
Proof.
  unfold statement_predicate, sql_statement.
  rewrite strip_prefix_app. apply strip_suffix_app.
Qed.

Lemma search_studies_with_sql_eq (E : Env) (custom_sql_where params : PyVal) :
  search_studies_with_sql E custom_sql_where params =
  match where_predicate E (where_text custom_sql_where) (bound_params params) with
  | Return (Predicate keep) => Return (frame_of (map fetched (selected E keep)))
  | Return (Rows rows) => Return (frame_of (map values rows))
  | Raise e => Raise e
  end.
Proof.
  unfold search_studies_with_sql, execute_fetchindex.
  rewrite statement_predicate_sql.
  now destruct (where_predicate E _ _) as [[keep|rows]|e].
Qed.

Lemma insert_by_id_HdRel (r x : StudyRecord) (l : list StudyRecord) :
  by_id x r -> HdRel by_id x l -> HdRel by_id x (insert_by_id r l).
Proof.
  intros Hxr Hl. destruct l as [|y l]; simpl.
  - now constructor.
  - destruct (study_id r <? study_id y)%Z; constructor; [exact Hxr|].
    now inversion Hl.
Qed.

Lemma insert_by_id_sorted (r : StudyRecord) (l : list StudyRecord) :
  Sorted by_id l -> Sorted by_id (insert_by_id r l).
Proof.
  induction 1 as [|x l Hs IH Hhd]; simpl.
  - repeat constructor.
  - destruct (study_id r <? study_id x)%Z eqn:Hlt.
    + constructor; [now constructor|].
      constructor. unfold by_id. apply Z.ltb_lt in Hlt. lia.
    + constructor; [exact IH|].
      apply insert_by_id_HdRel; [|exact Hhd].
      unfold by_id. apply Z.ltb_ge in Hlt. exact Hlt.
Qed.

Lemma order_by_study_id_sorted (rows : list StudyRecord) :
  Sorted by_id (order_by_study_id rows).
Proof.
  induction rows as [|r rows IH]; simpl.
  - constructor.
  - now apply insert_by_id_sorted.
Qed.

Lemma ascending_identifiers (rows : list StudyRecord) :
  StronglySorted Z.le (map study_id (order_by_study_id rows)).
Proof.
  assert (H : StronglySorted by_id (order_by_study_id rows)).
  { apply Sorted_StronglySorted; [|apply order_by_study_id_sorted].
    intros x y z; unfold by_id; lia. }
  induction H as [|x l Hl IH Hall]; simpl; constructor.
  - exact IH.
  - rewrite Forall_map. exact Hall.
Qed.

(** ** The synthesizer and the orchestrator *)

Lemma smart_search_studies_eq (E : Env) (user_query : string) :
  smart_search_studies E user_query =
  (f <- effective_filter E user_query ;; search_studies_with_sql E (fst f) (snd f)).
Proof.
  unfold smart_search_studies, effective_filter.
  destruct (llm_query_to_sql E user_query) as [sql_query|e]; cbn [bind]; [|reflexivity].
  destruct (getitem sql_query "where_clause") as [w|e]; cbn [bind]; [|reflexivity].
  now destruct (getitem sql_query "params") as [p|e].
Qed.

Lemma llm_query_to_sql_reply (E : Env) (user_query content cleaned : string) :
  create E user_query = Content content ->
  clean_response content = Return cleaned ->
  llm_query_to_sql E user_query =
  Return (match json_loads E cleaned with
          | Some result => result
          | None => fallback user_query
          end).
Proof.
  intros Hc Hr. unfold llm_query_to_sql. rewrite Hc, Hr. cbn [bind].
  now destruct (json_loads E cleaned).
Qed.

Lemma fallback_fields (user_query : string) :
  getitem (fallback user_query) "where_clause" = Return (fst (fallback_filter user_query))
  /\ getitem (fallback user_query) "params" = Return (snd (fallback_filter user_query)).
Proof. split; reflexivity. Qed.

Lemma effective_filter_fallback (E : Env) (user_query content cleaned : string) :
  create E user_query = Content content ->
  clean_response content = Return cleaned ->
  json_loads E cleaned = None ->
  effective_filter E user_query = Return (fallback_filter user_query).
Proof.
  intros Hc Hr Hj. unfold effective_filter.
  rewrite (llm_query_to_sql_reply E _ _ _ Hc Hr), Hj. reflexivity.
Qed.

Lemma effective_filter_reply (E : Env) (user_query content cleaned : string) (reply : PyVal) :
  create E user_query = Content content ->
  clean_response content = Return cleaned ->
  json_loads E cleaned = Some reply ->
  effective_filter E user_query =
  (w <- getitem reply "where_clause" ;; p <- getitem reply "params" ;; Return (w, p)).
Proof.
  intros Hc Hr Hj. unfold effective_filter.
  rewrite (llm_query_to_sql_reply E _ _ _ Hc Hr), Hj. reflexivity.
Qed.

Lemma like_any (text : string) : Sample.like "%" text = true.
Proof.
  induction text as [|c text IH].
  - reflexivity.
  - cbn in *. exact IH.
Qed.

(** ** The search pipeline: claims C1-C7, C9, C10 *)

(** C1, as stated, fails: the reply of the chat endpoint decides the clause
    text.  With an endpoint that writes the query into the clause as a quoted
    literal, the query [x' OR '1'='1] arrives inside the clause text handed to
    the accessor, and so inside the statement, where its quotes close the
    literal and add a second condition. *)
Lemma injection_counterexample :
  effective_filter Sample.quoting_env "x' OR '1'='1"
  = Return (PStr "s.study_title = 'x' OR '1'='1'", PList [])
  /\ has_control_syntax "s.study_title = 'x' OR '1'='1'" = true
  /\ smart_search_studies Sample.quoting_env "x' OR '1'='1"
     = search_studies_with_sql Sample.quoting_env
         (PStr "s.study_title = 'x' OR '1'='1'") (PList [])
  /\ sql_statement (PStr "s.study_title = 'x' OR '1'='1'")
     = sql_head ++ "s.study_title = 'x' OR '1'='1'" ++ sql_tail.
Proof. repeat split; reflexivity. Qed.

(** C1 (amended): when the reply does not decode as JSON, the clause handed to
    the accessor is the constant fallback clause, which has no control-syntax
    character, and the statement text is the template around it: the user
    query reaches the accessor only inside the two bound values.  When the
    reply decodes, the clause and the parameters are the reply's fields as
    decoded, with nothing checked. *)
Theorem clause_text_origin (E : Env) (user_query content cleaned : string) :
  create E user_query = Content content ->
  clean_response content = Return cleaned ->
  match json_loads E cleaned with
  | None =>
      effective_filter E user_query
      = Return (PStr fallback_where_clause,
                PList [PStr ("%" ++ keywords user_query ++ "%");
                       PStr ("%" ++ keywords user_query ++ "%")])
      /\ smart_search_studies E user_query
         = search_studies_with_sql E (PStr fallback_where_clause)
             (PList [PStr ("%" ++ keywords user_query ++ "%");
                     PStr ("%" ++ keywords user_query ++ "%")])
      /\ has_control_syntax fallback_where_clause = false
      /\ sql_statement (PStr fallback_where_clause)
         = sql_head ++ fallback_where_clause ++ sql_tail
  | Some reply =>
      effective_filter E user_query
      = (w <- getitem reply "where_clause" ;; p <- getitem reply "params" ;; Return (w, p))
  end.
Proof.
  intros Hc Hr. destruct (json_loads E cleaned) as [reply|] eqn:Hj.
  - exact (effective_filter_reply E _ _ _ _ Hc Hr Hj).
  - pose proof (effective_filter_fallback E _ _ _ Hc Hr Hj) as Hf.
    split; [exact Hf|].
    split; [rewrite smart_search_studies_eq, Hf; reflexivity|].
    split; reflexivity.
Qed.

Lemma clause_text_origin_witness :
  effective_filter (Sample.env (Content "No JSON here; sorry")) "soil'; DROP TABLE x; --"
  = Return (PStr fallback_where_clause,
            PList [PStr "%soil'; drop table x; --%"; PStr "%soil'; drop table x; --%"]).
Proof.
  exact (proj1 (clause_text_origin
                  (Sample.env (Content "No JSON here; sorry")) "soil'; DROP TABLE x; --"
                  "No JSON here; sorry" "No JSON here; sorry" eq_refl eq_refl)).
Defined.

(** C2, as stated, fails: the reply [{}] decodes as JSON but has neither
    field; the search does not fall back, it raises [KeyError]. *)
Lemma missing_fields_counterexample :
  create (Sample.env (Content "{}")) "soil" = Content "{}"
  /\ clean_response "{}" = Return "{}"
  /\ valid_reply (json_loads (Sample.env (Content "{}")) "{}") = false
  /\ smart_search_studies (Sample.env (Content "{}")) "soil" = Raise (KeyError "where_clause")
  /\ ~ uses_fallback (Sample.env (Content "{}")) "soil".
Proof.
  repeat split; try reflexivity.
  unfold uses_fallback. vm_compute. discriminate.
Qed.

(** C2 (amended): for every query and every reply that [json.loads] rejects
    (once the code fence is removed), the search raises nothing of its own
    and executes the Fallback's filter for the same query. *)
Theorem undecodable_reply_uses_fallback (E : Env) (user_query content cleaned : string) :
  create E user_query = Content content ->
  clean_response content = Return cleaned ->
  json_loads E cleaned = None ->
  uses_fallback E user_query
  /\ smart_search_studies E user_query
     = search_studies_with_sql E (fst (fallback_filter user_query))
                                 (snd (fallback_filter user_query)).
Proof.
  intros Hc Hr Hj.
  pose proof (effective_filter_fallback E _ _ _ Hc Hr Hj) as Hf.
  split; [exact Hf|].
  rewrite smart_search_studies_eq, Hf. reflexivity.
Qed.

Lemma undecodable_reply_uses_fallback_witness :
  uses_fallback (Sample.env (Content "```json {where_clause: } ```")) "Find studies about mice"
  /\ smart_search_studies (Sample.env (Content "```json {where_clause: } ```"))
       "Find studies about mice"
     = search_studies_with_sql (Sample.env (Content "```json {where_clause: } ```"))
         (fst (fallback_filter "Find studies about mice"))
         (snd (fallback_filter "Find studies about mice")).
Proof.
  exact (undecodable_reply_uses_fallback
           (Sample.env (Content "```json {where_clause: } ```")) "Find studies about mice"
           "```json {where_clause: } ```" "{where_clause: }" eq_refl eq_refl eq_refl).
Defined.

(** C3, as stated, fails: when the chat call does not complete, the search
    does not fall back; the exception of the call reaches the caller. *)
Lemma remote_failure_counterexample :
  create (Sample.env (Failed (APIError "timed out"))) "soil" = Failed (APIError "timed out")
  /\ smart_search_studies (Sample.env (Failed (APIError "timed out"))) "soil"
     = Raise (APIError "timed out")
  /\ ~ uses_fallback (Sample.env (Failed (APIError "timed out"))) "soil".
Proof.
  repeat split; try reflexivity.
  unfold uses_fallback. vm_compute. discriminate.
Qed.

(** C3 (amended): when the chat call does not complete, its exception passes
    through [llm_query_to_sql] and [smart_search_studies] to the caller; no
    filter is built and the store is not asked. *)
Theorem remote_failure_propagates (E : Env) (user_query : string) (e : exn) :
  create E user_query = Failed e ->
  llm_query_to_sql E user_query = Raise e
  /\ effective_filter E user_query = Raise e
  /\ smart_search_studies E user_query = Raise e.
Proof.
  intros Hc.
  assert (H : llm_query_to_sql E user_query = Raise e)
    by (unfold llm_query_to_sql; now rewrite Hc).
  unfold effective_filter, smart_search_studies. rewrite H. repeat split.
Qed.

Lemma remote_failure_propagates_witness :
  llm_query_to_sql (Sample.env (Failed (APIError "401"))) "gut" = Raise (APIError "401")
  /\ effective_filter (Sample.env (Failed (APIError "401"))) "gut" = Raise (APIError "401")
  /\ smart_search_studies (Sample.env (Failed (APIError "401"))) "gut" = Raise (APIError "401").
Proof.
  exact (remote_failure_propagates (Sample.env (Failed (APIError "401"))) "gut"
           (APIError "401") eq_refl).
Defined.

(** C4, as stated, fails: a reply with one placeholder and no parameter is
    handed to the accessor as it is. *)
Lemma mismatched_filter_counterexample :
  effective_filter (Sample.env (Content (Sample.reply_object "s.study_title ILIKE %s" "[]")))
    "soil"
  = Return (PStr "s.study_title ILIKE %s", PList [])
  /\ structurally_valid (PStr "s.study_title ILIKE %s") (PList []) = false
  /\ smart_search_studies
       (Sample.env (Content (Sample.reply_object "s.study_title ILIKE %s" "[]"))) "soil"
     = search_studies_with_sql
         (Sample.env (Content (Sample.reply_object "s.study_title ILIKE %s" "[]")))
         (PStr "s.study_title ILIKE %s") (PList []).
Proof. repeat split; reflexivity. Qed.

(** C4 (amended): the filter that reaches the accessor after a reply that does
    not decode is the Fallback's, with two placeholders and two parameters.
    (A filter decoded from the reply is handed over as decoded; its counts
    are not compared anywhere.) *)
Theorem fallback_filter_counts (E : Env) (user_query content cleaned : string) :
  create E user_query = Content content ->
  clean_response content = Return cleaned ->
  json_loads E cleaned = None ->
  exists clause values,
    effective_filter E user_query = Return (PStr clause, PList values)
    /\ placeholder_count clause = 2
    /\ List.length values = 2
    /\ structurally_valid (PStr clause) (PList values) = true.
Proof.
  intros Hc Hr Hj.
  exists fallback_where_clause,
    [PStr ("%" ++ keywords user_query ++ "%"); PStr ("%" ++ keywords user_query ++ "%")].
  split; [exact (effective_filter_fallback E _ _ _ Hc Hr Hj)|].
  repeat split.
Qed.

Lemma fallback_filter_counts_witness :
  exists clause values,
    effective_filter (Sample.env (Content "I cannot help with that")) "about soil"
    = Return (PStr clause, PList values)
    /\ placeholder_count clause = 2
    /\ List.length values = 2
    /\ structurally_valid (PStr clause) (PList values) = true.
Proof.
  exact (fallback_filter_counts (Sample.env (Content "I cannot help with that")) "about soil"
           "I cannot help with that" "I cannot help with that" eq_refl eq_refl eq_refl).
Defined.



(** C6: the Fallback Synthesizer is a total function of the query.  Its
    filter is the fixed clause, with two placeholders, and two parameters that
    are both the wildcarded keyword; for the empty query the keyword is empty
    and the pattern [%%] matches every text. *)
Theorem fallback_total (user_query : string) :
  fallback user_query
  = PDict [ ("where_clause", PStr fallback_where_clause);
            ("params", PList [ PStr ("%" ++ keywords user_query ++ "%");
                               PStr ("%" ++ keywords user_query ++ "%") ]) ]
  /\ valid_reply (Some (fallback user_query)) = true
  /\ placeholder_count fallback_where_clause = 2
  /\ structurally_valid (fst (fallback_filter user_query)) (snd (fallback_filter user_query))
     = true
  /\ keywords "" = ""
  /\ fallback "" = PDict [ ("where_clause", PStr fallback_where_clause);
                           ("params", PList [PStr "%%"; PStr "%%"]) ]
  /\ (forall text, Sample.ilike (Some text) ("%" ++ keywords "" ++ "%") = true).
Proof.
  repeat split.
  intros text. unfold Sample.ilike.
  change (PyStr.lower ("%" ++ keywords "" ++ "%")) with "%%".
  generalize (PyStr.lower text). intros t.
  destruct t as [|c t]; [reflexivity|].
  cbn. fold (Sample.like "%" (String c t)). now rewrite like_any.
Qed.

(** C7, as stated, fails twice over: with the chat call failing nothing is
    executed, the exception is raised; and the Fallback's keyword for this
    query keeps [soil]. *)
Lemma soil_microbiome_counterexample :
  effective_filter (Sample.env (Failed (APIError "unavailable"))) "studies about soil microbiome"
  = Raise (APIError "unavailable")
  /\ fallback_filter "studies about soil microbiome"
     <> (PStr fallback_where_clause, PList [PStr "%microbiome%"; PStr "%microbiome%"]).
Proof.
  split; [reflexivity|].
  vm_compute. discriminate.
Qed.

(** C7 (amended): for the query [studies about soil microbiome], when the
    reply does not decode as JSON, the effective filter is the fallback
    clause with both parameters [%soil microbiome%]: removing [studies] and
    [about] leaves the keyword [soil microbiome]. *)
Theorem soil_microbiome_fallback (E : Env) (content cleaned : string) :
  create E "studies about soil microbiome" = Content content ->
  clean_response content = Return cleaned ->
  json_loads E cleaned = None ->
  effective_filter E "studies about soil microbiome"
  = Return (PStr "(s.study_title ILIKE %s OR s.study_abstract ILIKE %s)",
            PList [PStr "%soil microbiome%"; PStr "%soil microbiome%"])
  /\ keywords "studies about soil microbiome" = "soil microbiome".
Proof.
  intros Hc Hr Hj. split; [|reflexivity].
  rewrite (effective_filter_fallback E _ _ _ Hc Hr Hj). reflexivity.
Qed.

Lemma soil_microbiome_fallback_witness :
  effective_filter (Sample.env (Content "Service busy")) "studies about soil microbiome"
  = Return (PStr "(s.study_title ILIKE %s OR s.study_abstract ILIKE %s)",
            PList [PStr "%soil microbiome%"; PStr "%soil microbiome%"])
  /\ keywords "studies about soil microbiome" = "soil microbiome".
Proof.
  exact (soil_microbiome_fallback (Sample.env (Content "Service busy"))
           "Service busy" "Service busy" eq_refl eq_refl eq_refl).
Defined.

(** C9, as stated, fails: the clause is put into the statement as it is, so a
    clause that ends the statement and carries a second one decides what
    comes back.  The template's ORDER BY then sorts the second statement by
    [s.study_id] while its first column is the negated identifier: the
    [study_id] column of the frame is descending. *)
Lemma second_statement_counterexample :
  sql_statement (PStr Sample.second_statement)
  = sql_head ++ Sample.second_statement ++ sql_tail
  /\ exists frame,
       search_studies_with_sql (Sample.env (Content "")) (PStr Sample.second_statement)
         (PList [])
       = Return frame
       /\ columns frame = result_columns
       /\ map (hd PNone) (data frame) = map PInt [-2; -5; -7]%Z
       /\ ~ StronglySorted Z.le [-2; -5; -7]%Z.
Proof.
  split; [reflexivity|].
  eexists. split; [reflexivity|]. split; [reflexivity|]. split; [reflexivity|].
  intros H. inversion H as [|x l Hs Hall]; subst.
  inversion Hall as [|y l' Hle Hrest]; subst. lia.
Qed.

(** C9 (amended): for every filter whose clause the store reads as the
    condition of the template's WHERE, the accessor returns a frame whose
    rows are the selected records in ascending order of study identifier,
    each row holding the seven values in the order of the column names; an
    empty result is the empty frame. *)
Theorem search_result_ordered (E : Env) (custom_sql_where params : PyVal)
    (keep : joined_row -> bool) :
  where_predicate E (where_text custom_sql_where) (bound_params params)
  = Return (Predicate keep) ->
  exists frame records,
    search_studies_with_sql E custom_sql_where params = Return frame
    /\ data frame = map fetched records
    /\ StronglySorted Z.le (map study_id records)
    /\ columns frame = match records with [] => [] | _ => result_columns end
    /\ Forall (fun r =>
                 combine result_columns (fetched r)
                 = [ ("study_id", PInt (study_id r));
                     ("study_title", text_value (study_title r));
                     ("study_abstract", text_value (study_abstract r));
                     ("pi_name", text_value (pi_name r));
                     ("pi_email", text_value (pi_email r));
                     ("pi_affiliation", text_value (pi_affiliation r));
                     ("lab_person_name", text_value (lab_person_name r)) ])
              records.
Proof.
  intros Hk. rewrite search_studies_with_sql_eq, Hk.
  exists (frame_of (map fetched (selected E keep))), (selected E keep).
  split; [reflexivity|]. repeat split.
  - now destruct (selected E keep).
  - apply ascending_identifiers.
  - now destruct (selected E keep).
  - apply Forall_forall. reflexivity.
Qed.

Lemma search_result_ordered_witness :
  exists frame records,
    search_studies_with_sql (Sample.env (Content "")) (PStr fallback_where_clause)
      (PList [PStr "%microbiome%"; PStr "%microbiome%"]) = Return frame
    /\ data frame = map fetched records
    /\ StronglySorted Z.le (map study_id records)
    /\ columns frame = match records with [] => [] | _ => result_columns end.
Proof.
  destruct (search_result_ordered (Sample.env (Content "")) (PStr fallback_where_clause)
              (PList [PStr "%microbiome%"; PStr "%microbiome%"]) _ eq_refl)
    as (frame & records & H1 & H2 & H3 & H4 & _).
  exists frame, records. auto.
Defined.

(** C10, as stated, fails on its example: [profound] holds [found], not
    [find], and stays whole. *)
Lemma profound_counterexample :
  keywords "a profound result" = "a profound result"
  /\ PyStr.contains "find" (PyStr.lower "a profound result") = false.
Proof. split; reflexivity. Qed.

(** C10 (amended): the keyword is the lowercased query from which [find],
    then [studies], then [about] are removed by a scan from the left that
    drops each match and goes on behind it, also inside longer words
    ([finding] leaves [ing]); words without these sequences ([study],
    [profound]) are kept; the result is trimmed and put between wildcards for
    both parameters. *)
Theorem keywords_by_substring_removal :
  (forall user_query,
      keywords user_query
      = PyStr.strip
          (PyStr.replace "about" ""
             (PyStr.replace "studies" "" (PyStr.replace "find" "" (PyStr.lower user_query))))
      /\ snd (fallback_filter user_query)
         = PList [PStr ("%" ++ keywords user_query ++ "%");
                  PStr ("%" ++ keywords user_query ++ "%")]
      /\ getitem (fallback user_query) "params" = Return (snd (fallback_filter user_query)))
  /\ Forall (fun stop =>
                forall c rest,
                  PyStr.replace stop "" (String c rest)
                  = if prefix stop (String c rest)
                    then PyStr.replace stop ""
                           (PyStr.slice_from (pred (String.length stop)) rest)
                    else String c (PyStr.replace stop "" rest))
            ["find"; "studies"; "about"]
  /\ keywords "Finding Nemo" = "ing nemo"
  /\ keywords "a study of profound soils" = "a study of profound soils"
  /\ keywords "  Find studies about Soil  " = "soil".
Proof.
  split; [intros q; repeat split|].
  split; [|repeat split].
  repeat constructor; intros c rest; now rewrite replace_step.
Qed.

(** ** The per-study handlers: claim C8 *)

Import StudyAPI.

(** An identifier that [int] rejects stops each handler before the registry
    is asked. *)
Lemma response_invalid_id (Study : Registry) (study_id : string) (e : exn) :
  int study_id = Raise e ->
  StudyAbstractAPIHandler.response Study study_id = Raise e
  /\ StudyDetailAPIHandler.response Study study_id = Raise e
  /\ StudyAuthorsAPIHandler.response Study study_id = Raise e.
Proof.
  intros H.
  unfold StudyAbstractAPIHandler.response, StudyDetailAPIHandler.response,
    StudyAuthorsAPIHandler.response.
  rewrite H. repeat split.
Qed.

Lemma int_raises_ValueError (text : string) (e : exn) :
  int text = Raise e -> exists msg, e = ValueError msg.
Proof.
  unfold int.
  destruct (match int_rstrip (int_lstrip text) with
            | EmptyString => _
            | String c t' => _
            end) as [negative body].
  destruct (int_digits 0 0 at_start body) as [[[n count] rest]|].
  - destruct (Nat.ltb int_max_str_digits count).
    + intros H. injection H as <-. unfold exceeds_limit. eauto.
    + destruct rest, count; intros H; try discriminate;
        injection H as <-; unfold invalid_literal; eauto.
  - intros H. injection H as <-. unfold invalid_literal. eauto.
Qed.

(** The two sibling handlers answer an identifier that is not an integer
    with status 400. *)
Lemma abstract_and_detail_invalid_id (Study : Registry) (study_id : string) (e : exn) :
  int study_id = Raise e ->
  StudyAbstractAPIHandler.get Study study_id
  = write_json (set_status fresh 400) (error_body "Invalid study ID format")
  /\ StudyDetailAPIHandler.get Study study_id
     = write_json (set_status fresh 400) (error_body "Invalid study ID format").
Proof.
  intros H. destruct (int_raises_ValueError _ _ H) as [msg ->].
  destruct (response_invalid_id Study _ _ H) as (Ha & Hd & _).
  unfold StudyAbstractAPIHandler.get, StudyDetailAPIHandler.get.
  rewrite Ha, Hd. split; reflexivity.
Qed.

(** The authors handler has no clause for [ValueError]: the general clause
    answers with status 500 and the text of the exception. *)
Lemma authors_invalid_id (Study : Registry) (study_id : string) (e : exn) :
  int study_id = Raise e ->
  StudyAuthorsAPIHandler.get Study study_id
  = write_json (set_status fresh 500)
      (error_body ("Error retrieving authors: " ++ exn_str e)).
Proof.
  intros H. destruct (int_raises_ValueError _ _ H) as [msg ->].
  destruct (response_invalid_id Study _ _ H) as (_ & _ & Hr).
  unfold StudyAuthorsAPIHandler.get. rewrite Hr. reflexivity.
Qed.

(** C8 at the identifier [abc], whatever the registry holds: the abstract and
    detail handlers answer 400 [Invalid study ID format], the authors handler
    answers 500 with the text of the [ValueError]. *)
Theorem authors_handler_invalid_id_is_500 (Study : Registry) :
  int "abc" = Raise (ValueError "invalid literal for int() with base 10: 'abc'")
  /\ status (StudyAbstractAPIHandler.get Study "abc") = 400%Z
  /\ status (StudyDetailAPIHandler.get Study "abc") = 400%Z
  /\ status (StudyAuthorsAPIHandler.get Study "abc") = 500%Z
  /\ StudyAuthorsAPIHandler.get Study "abc"
     = write_json (set_status fresh 500)
         (error_body "Error retrieving authors: invalid literal for int() with base 10: 'abc'").
Proof.
  assert (H : int "abc" = Raise (ValueError "invalid literal for int() with base 10: 'abc'"))
    by reflexivity.
  destruct (abstract_and_detail_invalid_id Study _ _ H) as [Ha Hd].
  pose proof (authors_invalid_id Study _ _ H) as Hauth.
  rewrite Ha, Hd, Hauth. repeat split.
Qed.

(** * Further properties of the code *)

(** ** The rows of the statement *)

Lemma left_join_in {L R J : Type} (on : L -> R -> bool) (extend : L -> option R -> J)
    (left : list L) (right : list R) (j : J) :
  In j (left_join on extend left right) <->
  exists l, In l left
            /\ ((filter (on l) right = [] /\ j = extend l None)
                \/ exists r, In r right /\ on l r = true /\ j = extend l (Some r)).
Proof.
  unfold left_join. rewrite in_flat_map. split.
  - intros (l & Hl & Hj). exists l. split; [exact Hl|].
    destruct (filter (on l) right) as [|m ms] eqn:Hf.
    + left. destruct Hj as [<-|[]]. now split.
    + right. apply in_map_iff in Hj. destruct Hj as (r & <- & Hr).
      rewrite <- Hf in Hr. apply filter_In in Hr. destruct Hr as [Hr Hon].
      now exists r.
  - intros (l & Hl & [[Hf ->]|(r & Hr & Hon & ->)]); exists l; (split; [exact Hl|]).
    + rewrite Hf. now left.
    + assert (Hin : In r (filter (on l) right)) by (apply filter_In; now split).
      destruct (filter (on l) right) as [|m ms]; [destruct Hin|].
      apply in_map_iff. now exists r.
Qed.

(** A LEFT JOIN drops no row of its left side. *)
Lemma left_join_keeps {L R J : Type} (on : L -> R -> bool) (extend : L -> option R -> J)
    (left : list L) (right : list R) (l : L) :
  In l left -> exists o, In (extend l o) (left_join on extend left right).
Proof.
  intros Hl. destruct (filter (on l) right) as [|r rs] eqn:Hf.
  - exists None. apply left_join_in. exists l. split; [exact Hl|]. left. now split.
  - assert (Hr : In r (filter (on l) right)) by (rewrite Hf; now left).
    apply filter_In in Hr. destruct Hr as [Hr Hon].
    exists (Some r). apply left_join_in. exists l. split; [exact Hl|]. right. now exists r.
Qed.

Lemma left_join_from {L R J : Type} (on : L -> R -> bool) (extend : L -> option R -> J)
    (left : list L) (right : list R) (j : J) :
  In j (left_join on extend left right) -> exists l o, In l left /\ j = extend l o.
Proof.
  intros H. apply left_join_in in H.
  destruct H as (l & Hl & [[_ ->]|(r & _ & _ & ->)]); eauto.
Qed.

Lemma from_clause_keeps_study (db : Database) (s0 : study_row) :
  In s0 (qiita_study db) -> exists j, In j (from_clause db) /\ s j = s0.
Proof.
  intros H0. unfold from_clause.
  eapply left_join_keeps in H0. destruct H0 as [o1 H1].
  eapply left_join_keeps in H1. destruct H1 as [o2 H2].
  eapply left_join_keeps in H2. destruct H2 as [o3 H3].
  eapply left_join_keeps in H3. destruct H3 as [o4 H4].
  eapply left_join_keeps in H4. destruct H4 as [o5 H5].
  eexists. split; [exact H5|]. reflexivity.
Qed.

Lemma from_clause_study (db : Database) (j : joined_row) :
  In j (from_clause db) -> In (s j) (qiita_study db).
Proof.
  unfold from_clause. intros H.
  apply left_join_from in H. destruct H as (l5 & o5 & H & ->).
  apply left_join_from in H. destruct H as (l4 & o4 & H & ->).
  apply left_join_from in H. destruct H as (l3 & o3 & H & ->).
  apply left_join_from in H. destruct H as (l2 & o2 & H & ->).
  apply left_join_from in H. destruct H as (l1 & o1 & H & ->).
  exact H.
Qed.

Lemma insert_by_id_in (r x : StudyRecord) (l : list StudyRecord) :
  In x (insert_by_id r l) <-> x = r \/ In x l.
Proof.
  induction l as [|y l IH]; simpl.
  - intuition.
  - destruct (study_id r <? study_id y)%Z; simpl; [intuition|].
    rewrite IH. intuition.
Qed.

Lemma order_by_study_id_in (x : StudyRecord) (rows : list StudyRecord) :
  In x (order_by_study_id rows) <-> In x rows.
Proof.
  induction rows as [|r rows IH]; simpl; [reflexivity|].
  rewrite insert_by_id_in, IH. intuition.
Qed.

Lemma insert_by_id_NoDup (r : StudyRecord) (l : list StudyRecord) :
  ~ In r l -> NoDup l -> NoDup (insert_by_id r l).
Proof.
  induction l as [|y l IH]; simpl; intros Hnin Hnd.
  - constructor; [intros []|constructor].
  - destruct (study_id r <? study_id y)%Z.
    + constructor; [exact Hnin|exact Hnd].
    + inversion Hnd as [|? ? Hy Hl]; subst. constructor.
      * rewrite insert_by_id_in. intuition.
      * apply IH; [intuition|exact Hl].
Qed.

Lemma order_by_study_id_NoDup (rows : list StudyRecord) :
  NoDup rows -> NoDup (order_by_study_id rows).
Proof.
  induction 1 as [|r rows Hnin Hnd IH]; simpl; [constructor|].
  apply insert_by_id_NoDup; [|exact IH]. now rewrite order_by_study_id_in.
Qed.

Lemma selected_in (E : Env) (keep : joined_row -> bool) (r : StudyRecord) :
  In r (selected E keep) <->
  exists j, In j (from_clause (database E)) /\ keep j = true /\ r = select_list j.
Proof.
  unfold selected, distinct. rewrite order_by_study_id_in, nodup_In, in_map_iff.
  split.
  - intros (j & <- & Hj). apply filter_In in Hj. destruct Hj. now exists j.
  - intros (j & Hj & Hk & ->). exists j. split; [reflexivity|]. apply filter_In. now split.
Qed.

Lemma selected_NoDup (E : Env) (keep : joined_row -> bool) : NoDup (selected E keep).
Proof. apply order_by_study_id_NoDup, NoDup_nodup. Qed.

Lemma text_value_inj (x y : option string) : text_value x = text_value y -> x = y.
Proof. destruct x, y; simpl; congruence. Qed.

Lemma fetched_inj (x y : StudyRecord) : fetched x = fetched y -> x = y.
Proof.
  destruct x, y; unfold fetched; cbn. intros H.
  injection H as H1 H2 H3 H4 H5 H6 H7.
  apply text_value_inj in H2, H3, H4, H5, H6, H7. congruence.
Qed.

Lemma fetched_NoDup (rows : list StudyRecord) : NoDup rows -> NoDup (map fetched rows).
Proof.
  induction 1 as [|r rows Hnin Hnd IH]; simpl; constructor; [|exact IH].
  rewrite in_map_iff. intros (x & Hx & Hin). apply fetched_inj in Hx. now subst.
Qed.

Lemma data_frame_of (results : list (list PyVal)) : data (frame_of results) = results.
Proof. now destruct results. Qed.

(** X2: when the store reads the clause as the condition of the template's
    WHERE, no row is returned twice, however many artifacts a study has. *)
Theorem search_rows_distinct (E : Env) (custom_sql_where params : PyVal)
    (keep : joined_row -> bool) :
  where_predicate E (where_text custom_sql_where) (bound_params params)
  = Return (Predicate keep) ->
  exists frame,
    search_studies_with_sql E custom_sql_where params = Return frame
    /\ NoDup (data frame).
Proof.
  intros Hk. rewrite search_studies_with_sql_eq, Hk.
  eexists. split; [reflexivity|]. rewrite data_frame_of.
  apply fetched_NoDup, selected_NoDup.
Qed.

Lemma search_rows_distinct_witness :
  exists frame,
    search_studies_with_sql (Sample.env (Content "")) (PStr "") PNone = Return frame
    /\ NoDup (data frame).
Proof.
  exact (search_rows_distinct (Sample.env (Content "")) (PStr "") PNone _ eq_refl).
Defined.

(** X3: the accessor returns [pd.DataFrame()], a frame without any column,
    exactly when the predicate keeps no joined row; otherwise the frame has
    the seven column names. *)
Theorem search_empty_frame (E : Env) (custom_sql_where params : PyVal)
    (keep : joined_row -> bool) :
  where_predicate E (where_text custom_sql_where) (bound_params params)
  = Return (Predicate keep) ->
  exists frame,
    search_studies_with_sql E custom_sql_where params = Return frame
    /\ (frame = empty_frame <-> forall j, In j (from_clause (database E)) -> keep j = false)
    /\ (frame <> empty_frame -> columns frame = result_columns).
Proof.
  intros Hk. rewrite search_studies_with_sql_eq, Hk.
  eexists. split; [reflexivity|].
  destruct (selected E keep) as [|r rs] eqn:Hs; cbn [map frame_of].
  - split; [|congruence]. split; [|reflexivity]. intros _ j Hj.
    destruct (keep j) eqn:Hkj; [|reflexivity]. exfalso.
    assert (Hin : In (select_list j) (selected E keep)) by (apply selected_in; now exists j).
    rewrite Hs in Hin. destruct Hin.
  - split; [|reflexivity]. split; [discriminate|]. intros Hnone. exfalso.
    assert (Hin : In r (selected E keep)) by (rewrite Hs; now left).
    apply selected_in in Hin. destruct Hin as (j & Hj & Hkj & _).
    rewrite (Hnone j Hj) in Hkj. discriminate.
Qed.

Lemma search_empty_frame_witness :
  exists frame,
    search_studies_with_sql (Sample.env (Content "")) (PStr "a.artifact_id = %s")
      (PList [PInt 99]) = Return frame
    /\ (frame = empty_frame <->
        forall j, In j (from_clause Sample.db) ->
                  match a j with
                  | Some x => (a_artifact_id x =? 99)%Z
                  | None => false
                  end = false)
    /\ (frame <> empty_frame -> columns frame = result_columns).
Proof.
  exact (search_empty_frame (Sample.env (Content "")) (PStr "a.artifact_id = %s")
           (PList [PInt 99]) _ eq_refl).
Defined.

(** X4: with an empty clause (or any value that is false in Python: [None],
    [0], an empty list) the statement asks for [1=1]; when the store reads
    that as true on every row, the identifiers returned are exactly those of
    the study table: the LEFT JOINs drop no study. *)
Theorem search_unconditional_scan (E : Env) (custom_sql_where params : PyVal)
    (keep : joined_row -> bool) :
  truthy custom_sql_where = false ->
  where_predicate E "1=1" (bound_params params) = Return (Predicate keep) ->
  (forall j, keep j = true) ->
  exists frame,
    search_studies_with_sql E custom_sql_where params = Return frame
    /\ forall n, In (PInt n) (map (hd PNone) (data frame))
                 <-> In n (map s_study_id (qiita_study (database E))).
Proof.
  intros Hf Hk Hall.
  assert (Hw : where_text custom_sql_where = "1=1") by (unfold where_text; now rewrite Hf).
  rewrite search_studies_with_sql_eq, Hw, Hk.
  eexists. split; [reflexivity|]. intros n.
  rewrite data_frame_of, map_map, !in_map_iff. split.
  - intros (r & Hn & Hr). apply selected_in in Hr. destruct Hr as (j & Hj & _ & ->).
    cbn in Hn. injection Hn as <-. exists (s j). split; [reflexivity|].
    now apply from_clause_study.
  - intros (s0 & <- & Hs0). destruct (from_clause_keeps_study _ _ Hs0) as (j & Hj & <-).
    exists (select_list j). split; [reflexivity|]. apply selected_in. exists j. auto.
Qed.

Lemma search_unconditional_scan_witness :
  exists frame,
    search_studies_with_sql (Sample.env (Content "")) (PStr "") PNone = Return frame
    /\ forall n, In (PInt n) (map (hd PNone) (data frame))
                 <-> In n (map s_study_id (qiita_study Sample.db)).
Proof.
  exact (search_unconditional_scan (Sample.env (Content "")) (PStr "") PNone
           (fun _ => true) eq_refl eq_refl (fun _ => eq_refl)).
Defined.

Lemma NoDup_map_eq {A B : Type} (f : A -> B) (l : list A) (x y : A) :
  NoDup (map f l) -> In x l -> In y l -> f x = f y -> x = y.
Proof.
  induction l as [|z l IH]; simpl; intros Hnd Hx Hy Hxy; [destruct Hx|].
  inversion Hnd as [|? ? Hnin Hnd']; subst.
  destruct Hx as [->|Hx], Hy as [->|Hy]; auto.
  - exfalso. apply Hnin. rewrite Hxy. now apply in_map.
  - exfalso. apply Hnin. rewrite <- Hxy. now apply in_map.
Qed.

Lemma NoDup_map_on {A B : Type} (f : A -> B) (l : list A) :
  NoDup l -> (forall x y, In x l -> In y l -> f x = f y -> x = y) -> NoDup (map f l).
Proof.
  induction 1 as [|z l Hnin Hnd IH]; simpl; intros Hinj; constructor.
  - rewrite in_map_iff. intros (x & Hx & Hin).
    assert (x = z) by (apply Hinj; auto). now subst.
  - apply IH. intros x y Hx Hy. apply Hinj; now right.
Qed.

Lemma sql_eq_some (x : option Z) (k : Z) : sql_eq x (Some k) = true -> x = Some k.
Proof.
  destruct x as [i|]; simpl; [|discriminate].
  intros H. apply Z.eqb_eq in H. now subst.
Qed.

Lemma from_clause_persons (db : Database) (j : joined_row) :
  In j (from_clause db) ->
  In (s j) (qiita_study db)
  /\ joined_person db (s_principal_investigator_id (s j)) (sp_pi j)
  /\ joined_person db (s_lab_person_id (s j)) (sp_lab j).
Proof.
  unfold from_clause. intros H.
  apply left_join_from in H. destruct H as (l5 & o5 & H & ->).
  apply left_join_from in H. destruct H as (l4 & o4 & H & ->).
  apply left_join_from in H. destruct H as (l3 & o3 & H & ->).
  apply left_join_in in H. destruct H as (l2 & H & Hlab).
  apply left_join_in in H. destruct H as (s0 & Hs & Hpi).
  assert (Hl2 : exists pi, l2 = (s0, pi)
                           /\ joined_person db (s_principal_investigator_id s0) pi).
  { destruct Hpi as [[Hf ->]|(p & Hp & Hon & ->)].
    - exists None. split; [reflexivity|exact Hf].
    - exists (Some p). split; [reflexivity|]. split; [exact Hp|]. now apply sql_eq_some. }
  destruct Hl2 as (pi & -> & Hjpi).
  assert (Hl3 : exists lab, l3 = ((s0, pi), lab)
                            /\ joined_person db (s_lab_person_id s0) lab).
  { destruct Hlab as [[Hf ->]|(p & Hp & Hon & ->)].
    - exists None. split; [reflexivity|exact Hf].
    - exists (Some p). split; [reflexivity|]. split; [exact Hp|]. now apply sql_eq_some. }
  destruct Hl3 as (lab & -> & Hjlab).
  cbn. auto.
Qed.

Lemma joined_person_unique (db : Database) (key : option Z)
    (p q : option study_person_row) :
  is_key sp_study_person_id (qiita_study_person db) ->
  joined_person db key p -> joined_person db key q -> p = q.
Proof.
  intros Hnd Hp Hq.
  assert (Hnone : forall x,
             filter (fun r => sql_eq key (Some (sp_study_person_id r)))
                    (qiita_study_person db) = [] ->
             In x (qiita_study_person db) -> key = Some (sp_study_person_id x) -> False).
  { intros x Hf Hx Hkey.
    assert (Hin : In x (filter (fun r => sql_eq key (Some (sp_study_person_id r)))
                               (qiita_study_person db))).
    { apply filter_In. split; [exact Hx|]. rewrite Hkey. simpl. apply Z.eqb_refl. }
    rewrite Hf in Hin. destruct Hin. }
  destruct p as [p|], q as [q|]; simpl in Hp, Hq.
  - destruct Hp as [Hp Hkp], Hq as [Hq Hkq]. f_equal.
    apply Hnd; auto. congruence.
  - destruct Hp as [Hp Hkp]. exfalso. eauto.
  - destruct Hq as [Hq Hkq]. exfalso. eauto.
  - reflexivity.
Qed.

(** With identifiers that are keys of their tables, the joined rows of one
    study all give the same record. *)
Lemma select_list_by_study (db : Database) (j1 j2 : joined_row) :
  is_key s_study_id (qiita_study db) ->
  is_key sp_study_person_id (qiita_study_person db) ->
  In j1 (from_clause db) -> In j2 (from_clause db) ->
  s_study_id (s j1) = s_study_id (s j2) ->
  select_list j1 = select_list j2.
Proof.
  intros Hs Hp H1 H2 Hid.
  apply from_clause_persons in H1. destruct H1 as (Hs1 & Hpi1 & Hlab1).
  apply from_clause_persons in H2. destruct H2 as (Hs2 & Hpi2 & Hlab2).
  assert (Heq : s j1 = s j2) by (apply Hs; auto).
  rewrite Heq in Hpi1, Hlab1.
  unfold select_list.
  rewrite (joined_person_unique db _ _ _ Hp Hpi1 Hpi2),
          (joined_person_unique db _ _ _ Hp Hlab1 Hlab2), Heq.
  reflexivity.
Qed.

Lemma NoDup_is_key {A : Type} (f : A -> Z) (table : list A) :
  NoDup (map f table) -> is_key f table.
Proof. intros Hnd x y. now apply NoDup_map_eq. Qed.

Lemma strictly_ascending (l : list Z) :
  StronglySorted Z.le l -> NoDup l -> StronglySorted Z.lt l.
Proof.
  induction 1 as [|x l Hs IH Hall]; intros Hnd; constructor;
    inversion Hnd as [|? ? Hnin Hnd']; subst.
  - now apply IH.
  - rewrite Forall_forall in *. intros y Hy.
    specialize (Hall y Hy). assert (x <> y) by (intros ->; contradiction). lia.
Qed.

Lemma selected_strict (E : Env) (keep : joined_row -> bool) :
  is_key s_study_id (qiita_study (database E)) ->
  is_key sp_study_person_id (qiita_study_person (database E)) ->
  StronglySorted Z.lt (map study_id (selected E keep)).
Proof.
  intros Hs Hp.
  apply strictly_ascending; [apply ascending_identifiers|].
  apply NoDup_map_on; [apply selected_NoDup|].
  intros x y Hx Hy Hxy.
  apply selected_in in Hx. destruct Hx as (j1 & Hj1 & _ & ->).
  apply selected_in in Hy. destruct Hy as (j2 & Hj2 & _ & ->).
  now apply (select_list_by_study (database E)).
Qed.

(** X5: when the store reads the clause as the condition of the template's
    WHERE, and [study_id] and [study_person_id] are keys of their tables, the
    accessor returns at most one row per study: the identifiers in the first
    column are strictly ascending. *)
Theorem search_one_row_per_study (E : Env) (custom_sql_where params : PyVal)
    (keep : joined_row -> bool) :
  NoDup (map s_study_id (qiita_study (database E))) ->
  NoDup (map sp_study_person_id (qiita_study_person (database E))) ->
  where_predicate E (where_text custom_sql_where) (bound_params params)
  = Return (Predicate keep) ->
  exists frame ids,
    search_studies_with_sql E custom_sql_where params = Return frame
    /\ map (hd PNone) (data frame) = map PInt ids
    /\ StronglySorted Z.lt ids.
Proof.
  intros Hs Hp Hk. rewrite search_studies_with_sql_eq, Hk.
  exists (frame_of (map fetched (selected E keep))), (map study_id (selected E keep)).
  split; [reflexivity|]. split.
  - rewrite data_frame_of, !map_map. reflexivity.
  - apply selected_strict; now apply NoDup_is_key.
Qed.

Lemma search_one_row_per_study_witness :
  exists frame ids,
    search_studies_with_sql (Sample.env (Content "")) (PStr "") PNone = Return frame
    /\ map (hd PNone) (data frame) = map PInt ids
    /\ StronglySorted Z.lt ids.
Proof.
  apply (search_one_row_per_study (Sample.env (Content "")) (PStr "") PNone (fun _ => true)).
  - simpl. repeat constructor; simpl; intuition lia.
  - simpl. repeat constructor; simpl; intuition lia.
  - reflexivity.
Defined.

Lemma filter_nil_iff {A : Type} (f : A -> bool) (l : list A) :
  filter f l = [] <-> forall x, In x l -> f x = false.
Proof.
  induction l as [|a l IH]; simpl.
  - split; [intros _ x [] | reflexivity].
  - destruct (f a) eqn:Ha.
    + split; [discriminate|]. intros H. rewrite (H a) in Ha; [discriminate | now left].
    + rewrite IH. split.
      * intros H x [<-|Hx]; auto.
      * intros H x Hx. apply H. now right.
Qed.

Lemma left_join_same_rows {L R J : Type} (on : L -> R -> bool)
    (extend : L -> option R -> J) (l1 l2 : list L) (r1 r2 : list R) :
  same_rows l1 l2 -> same_rows r1 r2 ->
  same_rows (left_join on extend l1 r1) (left_join on extend l2 r2).
Proof.
  intros Hl Hr j. rewrite !left_join_in. split.
  - intros (l & Hin & H). exists l. split; [now apply Hl|].
    destruct H as [[Hf ->]|(r & Hrin & Hon & ->)].
    + left. split; [|reflexivity]. apply filter_nil_iff. intros x Hx.
      apply (proj1 (filter_nil_iff _ _) Hf). now apply Hr.
    + right. exists r. split; [now apply Hr|]. now split.
  - intros (l & Hin & H). exists l. split; [now apply Hl|].
    destruct H as [[Hf ->]|(r & Hrin & Hon & ->)].
    + left. split; [|reflexivity]. apply filter_nil_iff. intros x Hx.
      apply (proj1 (filter_nil_iff _ _) Hf). now apply Hr.
    + right. exists r. split; [now apply Hr|]. now split.
Qed.

Lemma from_clause_same_rows (db1 db2 : Database) :
  same_tables db1 db2 -> same_rows (from_clause db1) (from_clause db2).
Proof.
  intros (Hs & Hp & Hsa & Ha & Hv). unfold from_clause.
  repeat (apply left_join_same_rows; [|assumption]). exact Hs.
Qed.

Lemma is_key_same_rows {A : Type} (f : A -> Z) (t1 t2 : list A) :
  same_rows t1 t2 -> is_key f t1 -> is_key f t2.
Proof. intros H Hk x y Hx Hy. apply Hk; now apply H. Qed.

Lemma strictly_sorted_same (l1 l2 : list StudyRecord) :
  StronglySorted Z.lt (map study_id l1) ->
  StronglySorted Z.lt (map study_id l2) ->
  same_rows l1 l2 -> l1 = l2.
Proof.
  revert l2. induction l1 as [|x l1 IH]; intros l2 H1 H2 Hsame.
  - destruct l2 as [|y l2]; [reflexivity|].
    destruct (proj2 (Hsame y) (or_introl eq_refl)).
  - destruct l2 as [|y l2]; [destruct (proj1 (Hsame x) (or_introl eq_refl))|].
    simpl in H1, H2.
    inversion H1 as [|? ? Hs1 Hall1]; subst. inversion H2 as [|? ? Hs2 Hall2]; subst.
    rewrite Forall_map, Forall_forall in Hall1, Hall2.
    assert (Hxy : x = y).
    { destruct (proj1 (Hsame x) (or_introl eq_refl)) as [Hy|Hy]; [now subst|].
      destruct (proj2 (Hsame y) (or_introl eq_refl)) as [Hx|Hx]; [now subst|].
      specialize (Hall1 y Hx). specialize (Hall2 x Hy). lia. }
    subst y. f_equal. apply IH; auto.
    intros z. split; intros Hz.
    + destruct (proj1 (Hsame z) (or_intror Hz)) as [<-|Hz2]; [|exact Hz2].
      specialize (Hall1 x Hz). lia.
    + destruct (proj2 (Hsame z) (or_intror Hz)) as [<-|Hz1]; [|exact Hz1].
      specialize (Hall2 x Hz). lia.
Qed.

(** X17: the answer does not depend on the order of the rows in the tables.
    Two registries that hold the same rows, with [study_id] and
    [study_person_id] keys of their tables, and whose stores read the
    predicate alike, give the same frame, row for row: ORDER BY fixes the
    order. *)
Theorem search_table_order (E1 E2 : Env) (custom_sql_where params : PyVal)
    (keep : joined_row -> bool) :
  same_tables (database E1) (database E2) ->
  is_key s_study_id (qiita_study (database E1)) ->
  is_key sp_study_person_id (qiita_study_person (database E1)) ->
  where_predicate E1 (where_text custom_sql_where) (bound_params params)
  = Return (Predicate keep) ->
  where_predicate E2 (where_text custom_sql_where) (bound_params params)
  = Return (Predicate keep) ->
  search_studies_with_sql E1 custom_sql_where params
  = search_studies_with_sql E2 custom_sql_where params.
Proof.
  intros Hsame Hks Hkp H1 H2. rewrite !search_studies_with_sql_eq, H1, H2.
  do 3 f_equal. apply strictly_sorted_same.
  - now apply selected_strict.
  - destruct Hsame as (Hs & Hp & _).
    apply selected_strict; [exact (is_key_same_rows _ _ _ Hs Hks)
                           | exact (is_key_same_rows _ _ _ Hp Hkp)].
  - intros r. rewrite !selected_in. pose proof (from_clause_same_rows _ _ Hsame) as Hf.
    split; intros (j & Hj & Hk & ->); exists j; (split; [now apply Hf | now split]).
Qed.

Lemma search_table_order_witness :
  search_studies_with_sql (Sample.env (Content "")) (PStr fallback_where_clause)
    (PList [PStr "%soil%"; PStr "%soil%"])
  = search_studies_with_sql Sample.env_reversed (PStr fallback_where_clause)
      (PList [PStr "%soil%"; PStr "%soil%"]).
Proof.
  apply (search_table_order (Sample.env (Content "")) Sample.env_reversed
           (PStr fallback_where_clause) (PList [PStr "%soil%"; PStr "%soil%"])
           (fun j => Sample.ilike (s_study_title (s j)) "%soil%"
                     || Sample.ilike (s_study_abstract (s j)) "%soil%")).
  - repeat split; intros H; simpl in *; tauto.
  - apply NoDup_is_key. simpl. repeat constructor; simpl; intuition lia.
  - apply NoDup_is_key. simpl. repeat constructor; simpl; intuition lia.
  - reflexivity.
  - reflexivity.
Defined.

(** ** The synthesizer *)

(** A text that does not open with whitespace. *)
Lemma lstrip_head (text : string) :
  match PyStr.lstrip text with
  | EmptyString => True
  | String c _ => PyStr.isspace c = false
  end.
Proof.
  induction text as [|c text IH]; [exact I|].
  cbn [PyStr.lstrip]. destruct (PyStr.isspace c) eqn:Hc; [exact IH | exact Hc].
Qed.

Lemma rstrip_idempotent (text : string) :
  PyStr.rstrip (PyStr.rstrip text) = PyStr.rstrip text.
Proof.
  induction text as [|c text IH]; [reflexivity|].
  cbn [PyStr.rstrip]. destruct (PyStr.rstrip text) as [|d r] eqn:Hr.
  - destruct (PyStr.isspace c) eqn:Hc; [reflexivity|].
    cbn [PyStr.rstrip]. now rewrite Hc.
  - cbn [PyStr.rstrip]. cbn [PyStr.rstrip] in IH. now rewrite IH.
Qed.

Lemma rstrip_head (c : ascii) (text : string) :
  PyStr.isspace c = false ->
  exists r, PyStr.rstrip (String c text) = String c r.
Proof.
  intros Hc. cbn [PyStr.rstrip]. destruct (PyStr.rstrip text) as [|d r].
  - rewrite Hc. now exists EmptyString.
  - now exists (String d r).
Qed.

Lemma strip_idempotent (text : string) : PyStr.strip (PyStr.strip text) = PyStr.strip text.
Proof.
  unfold PyStr.strip. pose proof (lstrip_head text) as Hh.
  destruct (PyStr.lstrip text) as [|c t]; [reflexivity|].
  destruct (rstrip_head c t Hh) as [r Hr]. rewrite Hr.
  cbn [PyStr.lstrip]. rewrite Hh, <- Hr. apply rstrip_idempotent.
Qed.


(** X6: removing the code fence from a reply text never fails: the index [1]
    taken after splitting on the fence always exists, so lines 112-119 raise
    no [IndexError]; and the text they leave for [json.loads] has no
    whitespace around it. *)
Theorem clean_response_total (content : string) :
  exists cleaned,
    clean_response content = Return cleaned /\ PyStr.strip cleaned = cleaned.
Proof.
  destruct (clean_response_returns content) as [cleaned Hr].
  exists cleaned. split; [exact Hr|].
  revert Hr. unfold clean_response.
  destruct (PyStr.startswith (PyStr.strip content) fence).
  - destruct (nth_error _ 1); [|discriminate].
    intros H. injection H as <-. apply strip_idempotent.
  - intros H. injection H as <-. apply strip_idempotent.
Qed.

Lemma backtick_free_cons (c : ascii) (text : string) :
  backtick_free (String c text) = true ->
  Ascii.eqb c "`" = false /\ backtick_free text = true.
Proof.
  unfold backtick_free. cbn [PyStr.contains prefix].
  destruct (ascii_dec "`" c) as [<-|Hne].
  - destruct text; discriminate.
  - intros H. split.
    + apply Ascii.eqb_neq. congruence.
    + destruct (PyStr.contains "`" text); [discriminate H | reflexivity].
Qed.

Lemma prefix_fence_other (c : ascii) (text : string) :
  Ascii.eqb c "`" = false -> prefix fence (String c text) = false.
Proof.
  intros H. unfold fence. cbn [prefix].
  destruct (ascii_dec "`" c) as [<-|Hne]; [|reflexivity].
  rewrite Ascii.eqb_refl in H. discriminate.
Qed.

Lemma prefix_inv (p text : string) :
  prefix p text = true -> exists rest, text = p ++ rest.
Proof.
  revert text. induction p as [|a p IH]; intros text H.
  - now exists text.
  - destruct text as [|b text]; [discriminate|]. cbn [prefix] in H.
    destruct (ascii_dec a b) as [<-|]; [|discriminate].
    destruct (IH _ H) as [rest ->]. now exists rest.
Qed.

(** Splitting on the fence cuts a text without backticks off at the first
    fence behind it. *)
Lemma split_inner (inner rest : string) :
  backtick_free inner = true ->
  PyStr.split fence (inner ++ fence ++ rest) = inner :: PyStr.split fence rest.
Proof.
  unfold PyStr.split. induction inner as [|c inner IH]; intros Hb.
  - pose proof (prefix_app fence rest) as Hp.
    change (EmptyString ++ fence ++ rest) with (String "`" (String "`" (String "`" rest))).
    change (fence ++ rest) with (String "`" (String "`" (String "`" rest))) in Hp.
    cbn [PyStr.split_from]. rewrite Hp. reflexivity.
  - apply backtick_free_cons in Hb. destruct Hb as [Hc Hb].
    change (String c inner ++ fence ++ rest) with (String c (inner ++ fence ++ rest)).
    cbn [PyStr.split_from]. rewrite (prefix_fence_other _ _ Hc), (IH Hb). reflexivity.
Qed.

Lemma split_no_fence (inner : string) :
  backtick_free inner = true -> PyStr.split fence inner = [inner].
Proof.
  unfold PyStr.split. induction inner as [|c inner IH]; intros Hb.
  - reflexivity.
  - apply backtick_free_cons in Hb. destruct Hb as [Hc Hb].
    cbn [PyStr.split_from]. rewrite (prefix_fence_other _ _ Hc), (IH Hb). reflexivity.
Qed.

(** X7: for a reply that, once trimmed, opens with a fence, the cleaned text
    is the text up to the next fence (or to the end when the fence is never
    closed), without a leading [json] tag, trimmed; whatever follows the
    closing fence is dropped.  (The text between the fences is taken free of
    backticks.) *)
Theorem clean_response_fenced_block (content inner closing : string) :
  backtick_free inner = true ->
  closing = EmptyString \/ prefix fence closing = true ->
  PyStr.strip content = fence ++ inner ++ closing ->
  clean_response content
  = Return (PyStr.strip (if prefix "json" inner then PyStr.slice_from 4 inner else inner)).
Proof.
  intros Hb Hclosing Hs. unfold clean_response, PyStr.startswith.
  rewrite Hs, prefix_app.
  assert (Hsplit : exists tail,
             PyStr.split fence (fence ++ inner ++ closing) = EmptyString :: inner :: tail).
  { destruct Hclosing as [->|Hp].
    - exists []. change (fence ++ inner ++ "") with (EmptyString ++ fence ++ inner ++ "").
      rewrite split_inner by reflexivity. f_equal.
      replace (inner ++ "") with inner by (clear; induction inner; simpl; congruence).
      now apply split_no_fence.
    - destruct (prefix_inv _ _ Hp) as [rest ->]. exists (PyStr.split fence rest).
      change (fence ++ inner ++ fence ++ rest)
        with (EmptyString ++ fence ++ inner ++ fence ++ rest).
      rewrite split_inner by reflexivity. f_equal. now apply split_inner. }
  destruct Hsplit as [tail ->]. reflexivity.
Qed.

Lemma clean_response_fenced_block_witness :
  clean_response "  ```json {} ``` Hope this helps! ```sql x``` "
  = Return (PyStr.strip (if prefix "json" "json {} "
                         then PyStr.slice_from 4 "json {} " else "json {} ")).
Proof.
  exact (clean_response_fenced_block "  ```json {} ``` Hope this helps! ```sql x``` "
           "json {} " "``` Hope this helps! ```sql x```"
           eq_refl (or_intror eq_refl) eq_refl).
Defined.

(** ** The fallback keyword *)









(** ** The orchestrator *)

(** X9: what [smart_search_studies] does with a reply that decodes.  A dict
    with both keys has its two values handed to the accessor as they are,
    whatever else the dict holds; a dict without [where_clause] raises
    [KeyError] for it, before [params] is looked at; with [where_clause] but
    without [params] the [KeyError] names [params]; any value that is not a
    dict raises [TypeError].  In the three error cases the store is not
    asked. *)
Theorem smart_search_studies_by_reply (E : Env) (user_query content cleaned : string)
    (reply : PyVal) :
  create E user_query = Content content ->
  clean_response content = Return cleaned ->
  json_loads E cleaned = Some reply ->
  match reply with
  | PDict d =>
      match lookup "where_clause" d, lookup "params" d with
      | Some where_clause, Some params =>
          smart_search_studies E user_query = search_studies_with_sql E where_clause params
      | Some _, None => smart_search_studies E user_query = Raise (KeyError "params")
      | None, _ => smart_search_studies E user_query = Raise (KeyError "where_clause")
      end
  | _ => exists msg, smart_search_studies E user_query = Raise (TypeError msg)
  end.
Proof.
  intros Hc Hr Hj. unfold smart_search_studies.
  rewrite (llm_query_to_sql_reply E _ _ _ Hc Hr), Hj. cbn [bind].
  destruct reply as [| b | z | t | l | d | c t]; cbn [getitem bind type_name]; eauto.
  destruct (lookup "where_clause" d) as [w|]; cbn [bind]; [|reflexivity].
  destruct (lookup "params" d) as [p|]; reflexivity.
Qed.

Lemma smart_search_studies_by_reply_witness :
  smart_search_studies
    (Sample.env (Content ("{" ++ Sample.quoted "where_clause" ++ ": " ++ Sample.quoted "1=1" ++ "}")))
    "soil"
  = Raise (KeyError "params").
Proof.
  exact (smart_search_studies_by_reply
           (Sample.env (Content ("{" ++ Sample.quoted "where_clause" ++ ": "
                                     ++ Sample.quoted "1=1" ++ "}")))
           "soil" _ _ (PDict [("where_clause", PStr "1=1")]) eq_refl eq_refl eq_refl).
Defined.

(** ** The handlers *)

Lemma attempt_eq (response : outcome PyVal) :
  attempt fresh response
  = match response with
    | Return r =>
        match dumps r with
        | Return text => (write (set_header fresh "Content-Type" "application/json") text,
                          Return tt)
        | Raise e => (set_header fresh "Content-Type" "application/json", Raise e)
        end
    | Raise e => (fresh, Raise e)
    end.
Proof. destruct response as [r|e]; reflexivity. Qed.

Ltac answer_cases response :=
  rewrite attempt_eq;
  destruct response as [r|e];
  [ destruct (dumps r) as [text|e] eqn:Hd;
    [ exists text; split; [reflexivity|]; left; repeat split; eauto
    | destruct e; eexists; (split; [reflexivity|]); right;
      (split; [cbn; tauto|]); (split; [eexists; reflexivity|]);
      (split; [reflexivity|eauto]) ]
  | destruct e; eexists; (split; [reflexivity|]); right;
    (split; [cbn; tauto|]); (split; [eexists; reflexivity|]); reflexivity ].

(** X11: none of the four handlers lets an exception out or answers twice.
    Each request gets one chunk: with status 200 the serialised response
    under the JSON content type; with 400, 404 or 500 an error object, and
    then the JSON content type is missing unless the failure came while
    serialising. *)
Theorem handlers_well_answered (Study : Registry) (study_id : string)
    (get_all_study_ids : outcome (list Z)) :
  well_answered (StudyAbstractAPIHandler.response Study study_id)
                (StudyAbstractAPIHandler.get Study study_id)
  /\ well_answered (StudyDetailAPIHandler.response Study study_id)
                   (StudyDetailAPIHandler.get Study study_id)
  /\ well_answered (StudyAuthorsAPIHandler.response Study study_id)
                   (StudyAuthorsAPIHandler.get Study study_id)
  /\ well_answered (StudyListAPIHandler.response get_all_study_ids Study)
                   (StudyListAPIHandler.get get_all_study_ids Study).
Proof.
  repeat split; unfold well_answered.
  - unfold StudyAbstractAPIHandler.get.
    answer_cases (StudyAbstractAPIHandler.response Study study_id).
  - unfold StudyDetailAPIHandler.get.
    answer_cases (StudyDetailAPIHandler.response Study study_id).
  - unfold StudyAuthorsAPIHandler.get.
    answer_cases (StudyAuthorsAPIHandler.response Study study_id).
  - unfold StudyListAPIHandler.get.
    answer_cases (StudyListAPIHandler.response get_all_study_ids Study).
Qed.

(** X12: an identifier that parses but is unknown to the registry gets
    status 404 from the three per-study handlers, and the message names the
    parsed integer, not the text that was sent ([ 0_7 ] is reported as 7). *)
Theorem handlers_not_found (Study : Registry) (study_id msg : string) (n : Z) :
  int study_id = Return n ->
  Study n = Raise (QiitaDBUnknownIDError msg) ->
  let not_found :=
    write_json (set_status fresh 404) (error_body ("Study " ++ decimal n ++ " not found")) in
  StudyAbstractAPIHandler.get Study study_id = not_found
  /\ StudyDetailAPIHandler.get Study study_id = not_found
  /\ StudyAuthorsAPIHandler.get Study study_id = not_found.
Proof.
  intros Hi Hs not_found.
  unfold StudyAbstractAPIHandler.get, StudyDetailAPIHandler.get, StudyAuthorsAPIHandler.get,
    StudyAbstractAPIHandler.response, StudyDetailAPIHandler.response,
    StudyAuthorsAPIHandler.response, study_id_var.
  rewrite Hi. cbn [bind]. rewrite Hs. repeat split.
Qed.

Lemma handlers_not_found_witness :
  let not_found :=
    write_json (set_status fresh 404) (error_body ("Study " ++ decimal 7 ++ " not found")) in
  StudyAbstractAPIHandler.get (fun _ => Raise (QiitaDBUnknownIDError "7")) " 0_7 " = not_found
  /\ StudyDetailAPIHandler.get (fun _ => Raise (QiitaDBUnknownIDError "7")) " 0_7 " = not_found
  /\ StudyAuthorsAPIHandler.get (fun _ => Raise (QiitaDBUnknownIDError "7")) " 0_7 " = not_found.
Proof.
  exact (handlers_not_found (fun _ => Raise (QiitaDBUnknownIDError "7")) " 0_7 " "7" 7
           eq_refl eq_refl).
Defined.

(** X13: a study object on which the three attributes are missing.  The
    detail and authors handlers answer 200 with their defaults; the abstract
    handler, which reads [study.title] without [hasattr], answers 500. *)
Theorem handlers_missing_attributes (Study : Registry) (study_id : string) (n : Z)
    (study : StudyObj) (m1 m2 m3 : string) :
  int study_id = Return n ->
  Study n = Return study ->
  title study = Raise (AttributeError m1) ->
  info study = Raise (AttributeError m2) ->
  study_status study = Raise (AttributeError m3) ->
  StudyDetailAPIHandler.response Study study_id
  = Return (PDict [ ("study_id", PInt n); ("title", PStr "No title");
                    ("abstract", PStr "No abstract available");
                    ("description", PStr "No description available");
                    ("status", PStr "unknown");
                    ("publication_doi", PList []); ("publication_pid", PList []);
                    ("study_alias", PStr "") ])
  /\ status (StudyDetailAPIHandler.get Study study_id) = 200%Z
  /\ StudyAuthorsAPIHandler.response Study study_id
     = Return (PDict [ ("study_id", PInt n); ("study_title", PStr "No title");
                       ("principal_investigator", PDict []); ("lab_person", PDict []) ])
  /\ status (StudyAuthorsAPIHandler.get Study study_id) = 200%Z
  /\ StudyAbstractAPIHandler.get Study study_id
     = write_json (set_status fresh 500)
         (error_body ("AttributeError: " ++ m1
                      ++ ". Study object may not be fully initialized.")).
Proof.
  intros Hi Hs Ht Hinfo Hst.
  unfold StudyDetailAPIHandler.get, StudyAuthorsAPIHandler.get, StudyAbstractAPIHandler.get,
    StudyDetailAPIHandler.response, StudyAuthorsAPIHandler.response,
    StudyAbstractAPIHandler.response.
  rewrite Hi. cbn [bind]. rewrite Hs. cbn [bind]. rewrite Ht, Hinfo, Hst.
  repeat split.
Qed.

Lemma handlers_missing_attributes_witness :
  status (StudyDetailAPIHandler.get
            (fun _ => Return {| title := Raise (AttributeError "title");
                                info := Raise (AttributeError "info");
                                study_status := Raise (AttributeError "status") |}) "12")
  = 200%Z.
Proof.
  exact (proj1 (proj2 (handlers_missing_attributes
           (fun _ => Return {| title := Raise (AttributeError "title");
                               info := Raise (AttributeError "info");
                               study_status := Raise (AttributeError "status") |})
           "12" 12 _ "title" "info" "status" eq_refl eq_refl eq_refl eq_refl eq_refl))).
Defined.

(** X14: when [info] holds the principal investigator as an object (a
    [StudyPerson], say) and not as a dict, the authors handler puts the object
    in its response, [dumps] cannot serialise it, and the answer is status
    500, with the JSON content type already set. *)
Theorem authors_object_person (Study : Registry) (study_id : string) (n : Z)
    (study : StudyObj) (t : string) (d : list (string * PyVal)) (class_name text : string) :
  int study_id = Return n ->
  Study n = Return study ->
  title study = Return (PStr t) ->
  info study = Return (PDict d) ->
  lookup "principal_investigator" d = Some (PObj class_name text) ->
  StudyAuthorsAPIHandler.get Study study_id
  = write_json (set_status (set_header fresh "Content-Type" "application/json") 500)
      (error_body ("Error retrieving authors: Object of type " ++ class_name
                   ++ " is not JSON serializable")).
Proof.
  intros Hi Hs Ht Hinfo Hpi.
  unfold StudyAuthorsAPIHandler.get, StudyAuthorsAPIHandler.response.
  rewrite Hi. cbn [bind]. rewrite Hs. cbn [bind]. rewrite Hinfo, Ht.
  cbn [attr_or bind get_method]. unfold dict_get. rewrite Hpi.
  reflexivity.
Qed.

Lemma authors_object_person_witness :
  StudyAuthorsAPIHandler.get
    (fun _ => Return {| title := Return (PStr "Soil");
                        info := Return (PDict [("principal_investigator",
                                                PObj "StudyPerson" "Rob Knight")]);
                        study_status := Return (PStr "public") |}) "3"
  = write_json (set_status (set_header fresh "Content-Type" "application/json") 500)
      (error_body ("Error retrieving authors: Object of type " ++ "StudyPerson"
                   ++ " is not JSON serializable")).
Proof.
  exact (authors_object_person
           (fun _ => Return {| title := Return (PStr "Soil");
                               info := Return (PDict [("principal_investigator",
                                                       PObj "StudyPerson" "Rob Knight")]);
                               study_status := Return (PStr "public") |})
           "3" 3 _ "Soil" _ "StudyPerson" "Rob Knight"
           eq_refl eq_refl eq_refl eq_refl eq_refl).
Defined.

(** X15: the detail handler reports [principal_investigator] and [lab_person]
    exactly when [info] has them, as a dict of name, email and affiliation; a
    person that is not a dict is shown through [str()] as the name, with empty
    email and affiliation.  The publication lists and the alias are always
    present, with their defaults when [info] lacks them. *)
Theorem detail_persons (Study : Registry) (study_id : string) (n : Z)
    (study : StudyObj) (t st : PyVal) (d : list (string * PyVal)) :
  int study_id = Return n ->
  Study n = Return study ->
  title study = Return t ->
  study_status study = Return st ->
  info study = Return (PDict d) ->
  exists r,
    StudyDetailAPIHandler.response Study study_id = Return (PDict r)
    /\ lookup "principal_investigator" r
       = option_map StudyDetailAPIHandler.person (lookup "principal_investigator" d)
    /\ lookup "lab_person" r
       = option_map StudyDetailAPIHandler.person (lookup "lab_person" d)
    /\ lookup "publication_doi" r = Some (dict_get d "publication_doi" (PList []))
    /\ lookup "publication_pid" r = Some (dict_get d "publication_pid" (PList []))
    /\ lookup "study_alias" r = Some (dict_get d "study_alias" (PStr ""))
    /\ forall class_name text,
         StudyDetailAPIHandler.person (PObj class_name text)
         = PDict [("name", PStr text); ("email", PStr ""); ("affiliation", PStr "")].
Proof.
  intros Hi Hs Ht Hst Hinfo.
  unfold StudyDetailAPIHandler.response, StudyDetailAPIHandler.add_person.
  rewrite Hi. cbn [bind]. rewrite Hs. cbn [bind]. rewrite Hinfo, Ht, Hst.
  cbn [attr_or bind get_method].
  destruct (lookup "principal_investigator" d) as [pi|];
    destruct (lookup "lab_person" d) as [lab|];
    eexists; (split; [reflexivity|]); repeat split.
Qed.

Lemma detail_persons_witness :
  exists r,
    StudyDetailAPIHandler.response
      (fun _ => Return {| title := Return (PStr "Soil");
                          info := Return (PDict [("principal_investigator",
                                                  PObj "StudyPerson" "Rob Knight")]);
                          study_status := Return (PStr "public") |}) "3"
    = Return (PDict r)
    /\ lookup "principal_investigator" r
       = Some (PDict [("name", PStr "Rob Knight"); ("email", PStr "");
                      ("affiliation", PStr "")])
    /\ lookup "lab_person" r = None.
Proof.
  destruct (detail_persons
              (fun _ => Return {| title := Return (PStr "Soil");
                                  info := Return (PDict [("principal_investigator",
                                                          PObj "StudyPerson" "Rob Knight")]);
                                  study_status := Return (PStr "public") |})
              "3" 3 _ (PStr "Soil") (PStr "public") _
              eq_refl eq_refl eq_refl eq_refl eq_refl)
    as (r & Hr & Hpi & Hlab & _).
  exists r. repeat split; assumption.
Defined.

Lemma study_list_filter (Study : Registry) (studies : list Z) :
  Forall2 (fun e study_id =>
             exists t st,
               e = PDict [("study_id", PInt study_id); ("title", t); ("status", st)])
          (StudyListAPIHandler.study_list Study studies)
          (filter (StudyListAPIHandler.listed Study) studies).
Proof.
  induction studies as [|study_id studies IH]; [constructor|].
  cbn [StudyListAPIHandler.study_list filter]. unfold StudyListAPIHandler.listed at 1.
  destruct (StudyListAPIHandler.entry Study study_id) as [e|] eqn:He; [|exact IH].
  constructor; [|exact IH].
  unfold StudyListAPIHandler.entry in He.
  destruct (Study study_id) as [study|]; cbn [bind] in He; [|discriminate].
  destruct (attr_or (title study) (PStr "No title")) as [t|]; cbn [bind] in He;
    [|discriminate].
  destruct (attr_or (study_status study) (PStr "unknown")) as [st|]; cbn [bind] in He;
    [|discriminate].
  injection He as <-. eauto.
Qed.

(** X16: in the listing, [total_studies] is always the number of entries of
    [studies]; the entries are those of the identifiers that could be loaded,
    in the order of iteration, each with its own identifier.  A study is left
    out, without a trace, when building it raises or when its title or status
    raises anything but [AttributeError]; a missing title or status does not
    leave it out. *)
Theorem list_response_counts (Study : Registry) (studies : list Z) :
  exists l,
    StudyListAPIHandler.response (Return studies) Study
    = Return (PDict [("total_studies", PInt (Z.of_nat (List.length l))); ("studies", PList l)])
    /\ Forall2 (fun e study_id =>
                  exists t st,
                    e = PDict [("study_id", PInt study_id); ("title", t); ("status", st)])
               l (filter (StudyListAPIHandler.listed Study) studies)
    /\ List.length l <= List.length studies
    /\ forall study_id,
         match Study study_id with
         | Raise _ => StudyListAPIHandler.listed Study study_id = false
         | Return study =>
             StudyListAPIHandler.listed Study study_id
             = match attr_or (title study) (PStr "No title"),
                     attr_or (study_status study) (PStr "unknown") with
               | Return _, Return _ => true
               | _, _ => false
               end
         end.
Proof.
  exists (StudyListAPIHandler.study_list Study studies).
  split; [reflexivity|]. split; [apply study_list_filter|]. split.
  - rewrite (Forall2_length (study_list_filter Study studies)). apply filter_length_le.
  - intros study_id. unfold StudyListAPIHandler.listed, StudyListAPIHandler.entry.
    destruct (Study study_id) as [study|]; cbn [bind]; [|reflexivity].
    destruct (attr_or (title study) (PStr "No title")); cbn [bind]; [|reflexivity].
    now destruct (attr_or (study_status study) (PStr "unknown")).
Qed.
